(** * Dash_Vendas: the sales dashboard of [app.py]

    A shallow embedding of the module [app.py]: the Normalizer and the
    Joiner that build [df_total], the Filter Index [filtros], the layout
    of the page, the two callbacks [atualizar_marcas] and
    [atualizar_graficos], and the order in which the module's top-level
    statements bind [app] and [server].

    Conventions of the model.
    - A cell that pandas may hold as NaN/NaT/None is an [option]; [None]
      is the missing value.
    - Identifiers, quantities and prices are integers, as a workbook holds
      them exactly (below 2^53 in magnitude); fractional prices are outside
      the model. Line 59 multiplies with the arithmetic of the columns'
      dtype: int64, which wraps, when neither column has a missing value,
      float64 otherwise. Sums are exact; the wrap-around and rounding of
      sums are outside the model.
    - Every sales workbook has at least one data row. A workbook with a
      header only gives columns of dtype object, on which line 59 and
      line 179 behave differently; such workbooks are outside the model.
    - Text columns are [string]s, compared by [String.eqb] and ordered by
      [String.leb] (Python orders [str] by code point).
    - [astype(str)] is the conversion of pandas 1.x and 2.x, which writes a
      missing value as the text [nan] (or [NaT] for a period).
    - The tables have the columns the module names; the other columns of
      the workbooks take no part in it.
    - A DataFrame is the list of its rows, in index order; the working
      frames of [atualizar_graficos] live in a store of objects, so that
      [copy], boolean indexing and in-place column assignment are
      distinguished. *)

From stdpp Require Import gmap strings.
From Stdlib Require Import ZArith List String Ascii Bool Lia.
From Stdlib Require Import Sorting.Sorted Sorting.Permutation.
From Stdlib Require Floats.PrimFloat Floats.FloatOps Numbers.Cyclic.Int63.Uint63.
Import ListNotations.

Local Open Scope Z_scope.
Set Warnings "-register-all".

(** ** Values *)

Record Date := mkDate { d_year : Z; d_month : Z; d_day : Z }.

(** What [read_excel] leaves in the cell of a date column. *)
Inductive Cell :=
| CellDate (d : Date)
| CellText (s : string)
| CellNaN.

(** The [errors=] argument of [pd.to_datetime]. *)
Inductive ErrorsMode := ErrRaise | ErrCoerce.

Inductive Resultado (A : Type) :=
| Ok (a : A)
| Erro (msg : string).
Arguments Ok {A} a.
Arguments Erro {A} msg.

Definition bindR {A B} (r : Resultado A) (k : A -> Resultado B) : Resultado B :=
  match r with
  | Ok a => k a
  | Erro m => Erro m
  end.

(** ** Rows of the source tables *)

(** A row of a sales workbook, under the forced schema [colunas_vendas]. *)
Record VendaBruta := mkVendaBruta {
  vb_data : Cell;
  vb_ordem : option Z;
  vb_id_produto : option Z;
  vb_id_cliente : option Z;
  vb_qtd : option Z;
  vb_id_loja : option Z }.

(** A row of [df_vendas] once ['Data da Venda'] is a datetime column. *)
Record Venda := mkVenda {
  v_data : option Date;
  v_ordem : option Z;
  v_id_produto : option Z;
  v_id_cliente : option Z;
  v_qtd : option Z;
  v_id_loja : option Z }.

(** The customer workbook comes in one of two schemas: with the columns
    ['Primeiro Nome'] and ['Sobrenome'], or already with ['Nome Completo']. *)
Record ClienteSeparado := mkClienteSeparado {
  cs_id : option Z;
  cs_primeiro_nome : option string;
  cs_sobrenome : option string }.

Record Cliente := mkCliente {
  c_id : option Z;
  c_nome_completo : option string }.

Inductive CadastroClientes :=
| ClientesSeparados (linhas : list ClienteSeparado)
| ClientesUnificados (linhas : list Cliente).

(** A row of the product workbook; [p_id] is the key column, whether the
    workbook calls it ['SKU'] or ['ID Produto'] (lines 42-43 rename it). *)
Record Produto := mkProduto {
  p_id : option Z;
  p_produto : option string;
  p_tipo : option string;
  p_marca : option string;
  p_preco : option Z }.

Record Loja := mkLoja {
  l_id : option Z;
  l_nome : option string }.

(** A row of [df_total]. *)
Record FactRow := mkFactRow {
  f_data : option Date;
  f_ordem : option Z;
  f_id_produto : option Z;
  f_id_cliente : option Z;
  f_qtd : option Z;
  f_id_loja : option Z;
  f_nome_completo : option string;
  f_produto : option string;
  f_tipo : option string;
  f_marca : option string;
  f_preco : option Z;
  f_nome_loja : option string;
  f_ano : option Z;
  f_valor : option Z }.

(** ** Small pandas and Python primitives *)

(** [Series.dropna()]. *)
Fixpoint dropna {A} (col : list (option A)) : list A :=
  match col with
  | [] => []
  | Some a :: t => a :: dropna t
  | None :: t => dropna t
  end.

(** [Series.astype(str)]: the missing value becomes the text [nan]. *)
Definition astype_str (c : option string) : string :=
  match c with
  | Some s => s
  | None => "nan"%string
  end.

(** Equality of merge keys: pandas matches a missing key with a missing key. *)
Definition chave_eqb (a b : option Z) : bool :=
  match a, b with
  | Some x, Some y => x =? y
  | None, None => true
  | _, _ => false
  end.

(** Truth value of a dropdown's [value]: [None] and the empty string
    (or empty list) are false. *)
Definition truthy_str (o : option string) : bool :=
  match o with
  | Some s => negb (String.eqb s "")
  | None => false
  end.

Definition truthy_lista (o : option (list string)) : bool :=
  match o with
  | Some (_ :: _) => true
  | _ => false
  end.

(** [col == valor] on a text column: a missing cell compares false. *)
Definition col_eq (valor : string) (c : option string) : bool :=
  match c with
  | Some s => String.eqb s valor
  | None => false
  end.

(** [col.isin(valores)] on a text column, for a list of names. *)
Definition isin (valores : list string) (c : option string) : bool :=
  match c with
  | Some s => existsb (String.eqb s) valores
  | None => false
  end.

(** [df[mask]]: the rows whose mask entry is [True], in order. *)
Fixpoint filtrar_mascara {A} (mask : list bool) (rows : list A) : list A :=
  match mask, rows with
  | b :: mask', r :: rows' =>
      if b then r :: filtrar_mascara mask' rows' else filtrar_mascara mask' rows'
  | _, _ => []
  end.

(** [Series.sum()]: missing values are skipped, the empty sum is 0. *)
Definition soma (col : list (option Z)) : Z :=
  fold_right Z.add 0 (dropna col).

(** The contribution of a measure cell to a sum. *)
Definition peso (v : option Z) : Z :=
  match v with
  | Some z => z
  | None => 0
  end.

(** Ordering, distinct values and grouping over a key type. *)
Section Chaves.
Context {K : Type}.
Variable eqb : K -> K -> bool.
Variable leb : K -> K -> bool.

Fixpoint inserir (x : K) (l : list K) : list K :=
  match l with
  | [] => [x]
  | h :: t => if leb x h then x :: h :: t else h :: inserir x t
  end.

(** Python's [sorted] on keys. *)
Definition sorted (l : list K) : list K := fold_right inserir [] l.

(** [Series.unique()]: distinct values in order of first appearance. *)
Fixpoint unique (l : list K) : list K :=
  match l with
  | [] => []
  | x :: t => x :: List.filter (fun y => negb (eqb x y)) (unique t)
  end.

Definition chave_igual (k : K) (c : option K) : bool :=
  match c with
  | Some k' => eqb k k'
  | None => false
  end.

(** The measure cells of the rows whose key is [k]. *)
Definition valores_do_grupo (k : K) (pares : list (option K * option Z))
  : list (option Z) :=
  List.map snd (List.filter (fun p => chave_igual k (fst p)) pares).

(** [df.groupby(key)[measure].sum().reset_index()]: one entry per
    distinct non-missing key, keys ascending. *)
Definition groupby_sum (pares : list (option K * option Z)) : list (K * Z) :=
  List.map (fun k => (k, soma (valores_do_grupo k pares)))
           (sorted (unique (dropna (List.map fst pares)))).

(** Whether a key cell falls in one of the groups [ks]. *)
Definition chave_em (ks : list K) (c : option K) : bool :=
  match c with
  | Some k => existsb (fun k' => eqb k' k) ks
  | None => false
  end.

(** Whether a (key, measure) pair has a key. *)
Definition tem_chave (p : option K * option Z) : bool :=
  match fst p with
  | Some _ => true
  | None => false
  end.
End Chaves.

(** [Series.nlargest(n)]: the [n] largest sums in descending order, the
    first-encountered entry first among equal sums. *)
Fixpoint inserir_desc {K} (x : K * Z) (l : list (K * Z)) : list (K * Z) :=
  match l with
  | [] => [x]
  | h :: t => if snd h <=? snd x then x :: h :: t else h :: inserir_desc x t
  end.

Definition ordenar_desc {K} (l : list (K * Z)) : list (K * Z) :=
  fold_right inserir_desc [] l.

Definition nlargest {K} (n : nat) (serie : list (K * Z)) : list (K * Z) :=
  firstn n (ordenar_desc serie).

(** ** Text of a monthly period *)

Definition digito (n : Z) : ascii := ascii_of_nat (48 + Z.to_nat (n mod 10)).

Definition dois_digitos (n : Z) : string :=
  String (digito (n / 10)) (String (digito n) EmptyString).

Definition quatro_digitos (n : Z) : string :=
  String (digito (n / 1000)) (String (digito (n / 100))
    (String (digito (n / 10)) (String (digito n) EmptyString))).

(** [.dt.to_period('M').astype(str)] on one cell: [YYYY-MM], and the text
    [NaT] for a missing date. *)
Definition rotulo_mes (c : option Date) : string :=
  match c with
  | Some d => String.append (quatro_digitos (d_year d))
                (String.append "-" (dois_digitos (d_month d)))
  | None => "NaT"%string
  end.

(** The first cell of a column that is not missing: pandas 2.x guesses
    the format of the whole column from it. *)
Fixpoint primeira_celula (col : list Cell) : option Cell :=
  match col with
  | [] => None
  | CellNaN :: t => primeira_celula t
  | c :: _ => Some c
  end.

(** ** A day-first reader for texts of the form [DD/MM/YYYY]

    The date reader of pandas is a parameter of the development; this small
    reader, which reads every text as [DD/MM/YYYY] whatever the first cell
    of the column, is the instance used on the concrete tables below. *)

Definition valor_digito (c : ascii) : option Z :=
  let n := Z.of_nat (nat_of_ascii c) in
  if (48 <=? n) && (n <=? 57) then Some (n - 48) else None.

Definition numero2 (a b : ascii) : option Z :=
  match valor_digito a, valor_digito b with
  | Some x, Some y => Some (10 * x + y)
  | _, _ => None
  end.

Definition bissexto (y : Z) : bool :=
  ((y mod 4 =? 0) && negb (y mod 100 =? 0)) || (y mod 400 =? 0).

Definition dias_no_mes (y m : Z) : Z :=
  if m =? 2 then (if bissexto y then 29 else 28)
  else if (m =? 4) || (m =? 6) || (m =? 9) || (m =? 11) then 30
  else 31.

Definition parse_dmy (primeiro : option Cell) (s : string) : option Date :=
  match list_ascii_of_string s with
  | [d1; d2; b1; m1; m2; b2; y1; y2; y3; y4] =>
      if Ascii.eqb b1 "/" && Ascii.eqb b2 "/" then
        match numero2 d1 d2, numero2 m1 m2, numero2 y1 y2, numero2 y3 y4 with
        | Some d, Some m, Some yh, Some yl =>
            let y := 100 * yh + yl in
            if (1 <=? m) && (m <=? 12) && (1 <=? d) && (d <=? dias_no_mes y m)
            then Some (mkDate y m d) else None
        | _, _, _, _ => None
        end
      else None
  | _ => None
  end.

(** ** The page: components, figures, callbacks *)

Inductive Component :=
| H1 (texto : string)
| Dropdown (id : string) (options : option (list string)) (multi : bool)
           (placeholder : string)
| Graph (id : string)
| Col (filho : Component) (md : Z)
| Row (filhos : list Component)
| Container (filhos : list Component)
| Div (filhos : list Component).

(** The dropdowns of a layout, as (id, multi), in document order. *)
Fixpoint dropdowns (c : Component) : list (string * bool) :=
  match c with
  | Dropdown id _ multi _ => [(id, multi)]
  | Col filho _ => dropdowns filho
  | Row filhos | Container filhos | Div filhos => flat_map dropdowns filhos
  | H1 _ | Graph _ => []
  end.

(** The graph ids of a layout, in document order. *)
Fixpoint graphs (c : Component) : list string :=
  match c with
  | Graph id => [id]
  | Col filho _ => graphs filho
  | Row filhos | Container filhos | Div filhos => flat_map graphs filhos
  | H1 _ | Dropdown _ _ _ _ => []
  end.

(** The [options] of the dropdown [alvo], if the layout gives it any. *)
Fixpoint opcoes_de (alvo : string) (c : Component) : list (list string) :=
  match c with
  | Dropdown id (Some ops) _ _ => if String.eqb id alvo then [ops] else []
  | Col filho _ => opcoes_de alvo filho
  | Row filhos | Container filhos | Div filhos => flat_map (opcoes_de alvo) filhos
  | _ => []
  end.

Inductive ChartKind := Bar | BarH | Line | Pie | Area.

Inductive Dados :=
| PorAno (serie : list (Z * Z))
| PorNome (serie : list (string * Z))
| PorLinha (linhas : list (option string * option Z)).

Record Figure := mkFigure {
  fig_kind : ChartKind;
  fig_title : string;
  fig_dados : Dados }.

(** The outputs and inputs of an [@app.callback], as (component id, property). *)
Record Callback := mkCallback {
  cb_outputs : list (string * string);
  cb_inputs : list (string * string) }.

(** The five [value]s that the page sends to [atualizar_graficos]. *)
Record Selecao := mkSelecao {
  s_tipo : option string;
  s_marca : option string;
  s_produtos : option (list string);
  s_lojas : option (list string);
  s_clientes : option (list string) }.

Record Filtros := mkFiltros {
  ft_tipo : list string;
  ft_marca : list string;
  ft_produto : list string;
  ft_loja : list string;
  ft_cliente : list string }.

(** ** Loader, Normalizer and Joiner (lines 20-59) *)

(** A sales workbook as [read_excel] gives it, with its first data row. *)
Record Planilha := mkPlanilha {
  pl_primeira : VendaBruta;
  pl_demais : list VendaBruta }.

Definition linhas_de (pl : Planilha) : list VendaBruta :=
  pl_primeira pl :: pl_demais pl.

(** The three workbooks of [arquivos_vendas] (lines 10-14). *)
Record Arquivos := mkArquivos {
  a_2020 : Planilha;
  a_2021 : Planilha;
  a_2022 : Planilha }.

(** Lines 20-27: [pd.concat(lista_vendas, ignore_index=True)]. *)
Definition concat_vendas (arquivos : Arquivos) : list VendaBruta :=
  linhas_de (a_2020 arquivos) ++ linhas_de (a_2021 arquivos)
    ++ linhas_de (a_2022 arquivos).

(** Lines 37-39: the full name is [str(first) + ' ' + str(last)]. *)
Definition nome_completo (c : ClienteSeparado) : string :=
  String.append (astype_str (cs_primeiro_nome c))
    (String.append " " (astype_str (cs_sobrenome c))).

Definition unificar_cliente (c : ClienteSeparado) : Cliente :=
  mkCliente (cs_id c) (Some (nome_completo c)).

Definition normalizar_clientes (cad : CadastroClientes) : list Cliente :=
  match cad with
  | ClientesSeparados linhas => List.map unificar_cliente linhas
  | ClientesUnificados linhas => linhas
  end.

(** [DataFrame.merge(right, on=key, how='left')]: each left row once per
    matching right row, in the right table's order, and once with no
    right row when nothing matches; left order is kept. *)
Definition merge_left {L R} (kl : L -> option Z) (kr : R -> option Z)
    (esq : list L) (dir : list R) : list (L * option R) :=
  flat_map (fun l =>
    match List.filter (fun r => chave_eqb (kl l) (kr r)) dir with
    | [] => [(l, None)]
    | ms => List.map (fun r => (l, Some r)) ms
    end) esq.

Definition coluna {R A} (o : option R) (campo : R -> option A) : option A :=
  match o with
  | Some r => campo r
  | None => None
  end.

Definition tem_numero (c : option Z) : bool :=
  match c with
  | Some _ => true
  | None => false
  end.

(** Whether ['Qtd Vendida'] and ['Preço Unitario'] are both int64 columns
    in the joined table: no sale lacks a quantity, no product lacks a
    price, and every sale finds a product (a missing value, or a sale
    without product, makes the column float64). *)
Definition colunas_inteiras (vendas : list Venda) (produtos : list Produto)
  : bool :=
  forallb (fun v => tem_numero (v_qtd v)) vendas &&
  forallb (fun p => tem_numero (p_preco p)) produtos &&
  forallb (fun v =>
             existsb (fun p => chave_eqb (v_id_produto v) (p_id p)) produtos)
          vendas.

(** The value an int64 operation leaves: two's complement on 64 bits. *)
Definition wrap64 (z : Z) : Z := (z + 2 ^ 63) mod 2 ^ 64 - 2 ^ 63.

(** The float64 nearest to an integer (53-bit significand, ties to even). *)
Definition float64_de_Z (z : Z) : Z :=
  let a := Z.abs z in
  let e := Z.log2 a - 52 in
  if e <=? 0 then z
  else
    let m := Z.shiftr a e in
    let r := a - Z.shiftl m e in
    let meio := Z.shiftl 1 (e - 1) in
    let m' := if (meio <? r) || ((r =? meio) && Z.odd m) then m + 1 else m in
    Z.sgn z * Z.shiftl m' e.

(** The integer that a finite binary64 number of the machine holds, and
    the binary64 number nearest to an integer below 2^63 in magnitude:
    the machine's own arithmetic, against which [float64_de_Z] is checked
    on examples. *)
Definition binary64_valor (x : PrimFloat.float) : option Z :=
  match FloatOps.Prim2SF x with
  | SpecFloat.S754_zero _ => Some 0
  | SpecFloat.S754_finite s m e =>
      if 0 <=? e then Some ((if s then -1 else 1) * (Z.pos m * 2 ^ e))
      else if Z.pos m mod 2 ^ (- e) =? 0
           then Some ((if s then -1 else 1) * (Z.pos m / 2 ^ (- e)))
           else None
  | _ => None
  end.

Definition binary64_de_Z (z : Z) : PrimFloat.float :=
  let x := PrimFloat.of_uint63 (Uint63.of_Z (Z.abs z)) in
  if z <? 0 then PrimFloat.opp x else x.

Definition produto_binary64 (q p : Z) : option Z :=
  binary64_valor (PrimFloat.mul (binary64_de_Z q) (binary64_de_Z p)).

(** The product of two cells, in int64 or in float64 columns. *)
Definition produto (inteiras : bool) (q p : Z) : Z :=
  if inteiras then wrap64 (q * p)
  else float64_de_Z (float64_de_Z q * float64_de_Z p).

(** Line 59: [Qtd Vendida * Preço Unitario], missing when an operand is. *)
Definition valor_da_venda (inteiras : bool) (qtd preco : option Z) : option Z :=
  match qtd, preco with
  | Some q, Some p => Some (produto inteiras q p)
  | _, _ => None
  end.

(** Line 58: [.dt.year]. *)
Definition ano_de (d : option Date) : option Z := option_map d_year d.

(** A joined row with the two auxiliary columns of lines 58-59. *)
Definition linha_total (inteiras : bool)
    (j : Venda * option Cliente * option Produto * option Loja) : FactRow :=
  let '(v, c, p, l) := j in
  mkFactRow (v_data v) (v_ordem v) (v_id_produto v) (v_id_cliente v)
    (v_qtd v) (v_id_loja v)
    (coluna c c_nome_completo)
    (coluna p p_produto) (coluna p p_tipo) (coluna p p_marca) (coluna p p_preco)
    (coluna l l_nome)
    (ano_de (v_data v))
    (valor_da_venda inteiras (v_qtd v) (coluna p p_preco)).

(** Lines 53-59 on the normalized tables. *)
Definition juntar (vendas : list Venda) (clientes : list Cliente)
    (produtos : list Produto) (lojas : list Loja) : list FactRow :=
  let m1 := merge_left v_id_cliente c_id vendas clientes in
  let m2 := merge_left (fun j => v_id_produto (fst j)) p_id m1 produtos in
  let m3 := merge_left (fun j => v_id_loja (fst (fst j))) l_id m2 lojas in
  List.map (linha_total (colunas_inteiras vendas produtos)) m3.

Section Painel.

(** The day-first text reader behind [pd.to_datetime(..., dayfirst=True)]:
    how a text is read may depend on the first cell of its column that is
    not missing, from which pandas 2.x guesses one format for the column. *)
Variable parse_dayfirst : option Cell -> string -> option Date.

Definition to_datetime_cell (primeiro : option Cell) (errors : ErrorsMode)
    (c : Cell) : Resultado (option Date) :=
  match c with
  | CellDate d => Ok (Some d)
  | CellNaN => Ok None
  | CellText s =>
      match parse_dayfirst primeiro s with
      | Some d => Ok (Some d)
      | None =>
          match errors with
          | ErrCoerce => Ok None
          | ErrRaise => Erro "ValueError: unable to parse date"
          end
      end
  end.

Fixpoint to_datetime_com (primeiro : option Cell) (errors : ErrorsMode)
    (col : list Cell) : Resultado (list (option Date)) :=
  match col with
  | [] => Ok []
  | c :: t =>
      bindR (to_datetime_cell primeiro errors c) (fun d =>
      bindR (to_datetime_com primeiro errors t) (fun ds => Ok (d :: ds)))
  end.

Definition to_datetime (errors : ErrorsMode) (col : list Cell)
  : Resultado (list (option Date)) :=
  to_datetime_com (primeira_celula col) errors col.

Definition com_data_venda (v : VendaBruta) (d : option Date) : Venda :=
  mkVenda d (vb_ordem v) (vb_id_produto v) (vb_id_cliente v) (vb_qtd v)
    (vb_id_loja v).

(** [df[col] = valores]: positional, lengths must agree. *)
Fixpoint atribuir {A B C} (f : A -> B -> C) (rows : list A) (col : list B)
  : Resultado (list C) :=
  match rows, col with
  | [], [] => Ok []
  | r :: rows', c :: col' =>
      bindR (atribuir f rows' col') (fun t => Ok (f r c :: t))
  | _, _ => Erro "ValueError: length of values does not match length of index"
  end.

(** Line 50. *)
Definition normalizar_vendas (df_vendas : list VendaBruta)
  : Resultado (list Venda) :=
  bindR (to_datetime ErrCoerce (List.map vb_data df_vendas)) (fun datas =>
  atribuir com_data_venda df_vendas datas).

(** Lines 20-59: [df_total] from the workbooks as read. *)
Definition construir_df_total (arquivos : Arquivos)
    (cad : CadastroClientes) (produtos : list Produto) (lojas : list Loja)
  : Resultado (list FactRow) :=
  bindR (normalizar_vendas (concat_vendas arquivos)) (fun vendas =>
  Ok (juntar vendas (normalizar_clientes cad) produtos lojas)).

(** ** Filter Index (lines 63-69) *)

Definition distintos (col : list (option string)) : list string :=
  unique String.eqb (dropna col).

Definition filtros (df_total : list FactRow) : Filtros :=
  mkFiltros (distintos (List.map f_tipo df_total))
            (distintos (List.map f_marca df_total))
            (distintos (List.map f_produto df_total))
            (distintos (List.map f_nome_loja df_total))
            (distintos (List.map f_nome_completo df_total)).

Definition ordenar_textos : list string -> list string := sorted String.leb.

(** ** Layout (lines 76-125) *)

Definition layout_painel (df_total : list FactRow) : Component :=
  let ft := filtros df_total in
  Container [
    H1 "📊 Dashboard de Vendas";
    Row [
      Col (Dropdown "filtro_tipo" (Some (ordenar_textos (ft_tipo ft))) false
             "Selecione o Tipo de Produto") 4;
      Col (Dropdown "filtro_marca" None false "Selecione a Marca") 4;
      Col (Dropdown "filtro_produto" (Some (ordenar_textos (ft_produto ft)))
             true "Filtrar por Produto") 4;
      Col (Dropdown "filtro_loja" (Some (ordenar_textos (ft_loja ft))) true
             "Filtrar por Loja") 4;
      Col (Dropdown "filtro_cliente" (Some (ordenar_textos (ft_cliente ft)))
             true "Filtrar por Cliente") 4 ];
    Row [ Col (Graph "grafico_ano") 6; Col (Graph "grafico_cliente") 6 ];
    Row [ Col (Graph "grafico_produto") 6; Col (Graph "grafico_loja") 6 ];
    Row [ Col (Graph "grafico_pizza_tipo") 6;
          Col (Graph "grafico_area_tempo") 6 ] ].

(** Lines 240-242. *)
Definition layout_hello : Component := Div [ H1 "Hello Dash" ].

(** ** Brand cascade (lines 128-136) *)

Definition atualizar_marcas (df_total : list FactRow) (tipo : option string)
  : list string :=
  match tipo with
  | Some t =>
      if truthy_str tipo then
        let mask := List.map (fun r => col_eq t (f_tipo r)) df_total in
        let marcas := distintos (List.map f_marca (filtrar_mascara mask df_total)) in
        ordenar_textos marcas
      else []
  | None => []
  end.

(** ** Query Engine (lines 153-164), on the rows *)

Definition filtro_escalar (valor : option string)
    (col : FactRow -> option string) (df : list FactRow) : list FactRow :=
  match valor with
  | Some v =>
      if truthy_str valor
      then filtrar_mascara (List.map (fun r => col_eq v (col r)) df) df
      else df
  | None => df
  end.

Definition filtro_lista (valores : option (list string))
    (col : FactRow -> option string) (df : list FactRow) : list FactRow :=
  match valores with
  | Some vs =>
      if truthy_lista valores
      then filtrar_mascara (List.map (fun r => isin vs (col r)) df) df
      else df
  | None => df
  end.

Definition query_engine (df_total : list FactRow) (sel : Selecao)
  : list FactRow :=
  let df := df_total in
  let df := filtro_escalar (s_tipo sel) f_tipo df in
  let df := filtro_escalar (s_marca sel) f_marca df in
  let df := filtro_lista (s_produtos sel) f_produto df in
  let df := filtro_lista (s_lojas sel) f_nome_loja df in
  let df := filtro_lista (s_clientes sel) f_nome_completo df in
  df.

(** ** Aggregators (lines 170-228), on the rows *)

Definition par {K} (chave : FactRow -> option K) (r : FactRow)
  : option K * option Z := (chave r, f_valor r).

Definition vendas_por_ano (df : list FactRow) : list (Z * Z) :=
  groupby_sum Z.eqb Z.leb (List.map (par f_ano) df).

Definition top_clientes (df : list FactRow) : list (string * Z) :=
  nlargest 10 (groupby_sum String.eqb String.leb (List.map (par f_nome_completo) df)).

Definition top_produtos (df : list FactRow) : list (string * Z) :=
  nlargest 10 (groupby_sum String.eqb String.leb (List.map (par f_produto) df)).

Definition vendas_lojas (df : list FactRow) : list (string * Z) :=
  groupby_sum String.eqb String.leb (List.map (par f_nome_loja) df).

Definition distribuicao_tipo (df : list FactRow)
  : list (option string * option Z) := List.map (par f_tipo) df.

(** Line 220: the column ['Mês']. *)
Definition coluna_mes (df : list FactRow) : list string :=
  List.map (fun r => rotulo_mes (f_data r)) df.

(** Line 221, from the column ['Mês'] and the rows it was assigned to. *)
Definition vendas_mes_de (mes : list string) (df : list FactRow)
  : list (string * Z) :=
  groupby_sum String.eqb String.leb
    (List.combine (List.map Some mes) (List.map f_valor df)).

Definition vendas_mes (df : list FactRow) : list (string * Z) :=
  vendas_mes_de (coluna_mes df) df.

Record Figuras := mkFiguras {
  fig1 : Figure; fig2 : Figure; fig3 : Figure;
  fig4 : Figure; fig5 : Figure; fig6 : Figure }.

Definition montar_figuras (df : list FactRow) (serie_mes : list (string * Z))
  : Figuras :=
  mkFiguras
    (mkFigure Bar "Vendas por Ano" (PorAno (vendas_por_ano df)))
    (mkFigure BarH "Top 10 Clientes" (PorNome (top_clientes df)))
    (mkFigure Line "Top 10 Produtos" (PorNome (top_produtos df)))
    (mkFigure Bar "Vendas por Loja" (PorNome (vendas_lojas df)))
    (mkFigure Pie "Distribuição por Tipo de Produto" (PorLinha (distribuicao_tipo df)))
    (mkFigure Area "Evolução Mensal de Vendas" (PorNome serie_mes)).

(** The figures as a function of [df_total] and the selection. *)
Definition figuras (df_total : list FactRow) (sel : Selecao) : Figuras :=
  let df := query_engine df_total sel in
  montar_figuras df (vendas_mes df).

(** ** [atualizar_graficos] on a store of DataFrame objects

    A frame object holds its rows and, once line 220 has run on it, the
    column ['Mês']. Names are bound to addresses of the store. *)

Record Frame := mkFrame {
  fr_rows : list FactRow;
  fr_mes : option (list string) }.

Definition M (A : Type) : Type :=
  gmap nat Frame -> Resultado (A * gmap nat Frame).

Definition ret {A} (a : A) : M A := fun σ => Ok (a, σ).

Definition bind {A B} (m : M A) (k : A -> M B) : M B :=
  fun σ => match m σ with
           | Ok (a, σ') => k a σ'
           | Erro e => Erro e
           end.

Definition lift {A} (r : Resultado A) : M A :=
  fun σ => match r with
           | Ok a => Ok (a, σ)
           | Erro e => Erro e
           end.

Notation "'let*' x := m 'in' k" := (bind m (fun x => k))
  (at level 10, x name, m at level 100, k at level 200, only parsing).

Definition ler (l : nat) : M Frame :=
  fun σ => match σ !! l with
           | Some fr => Ok (fr, σ)
           | None => Erro "NameError"
           end.

Definition novo (fr : Frame) : M nat :=
  fun σ => let l := fresh (dom σ) in Ok (l, <[l := fr]> σ).

Definition gravar (l : nat) (fr : Frame) : M unit :=
  fun σ => Ok (tt, <[l := fr]> σ).

(** [df.copy()]: a new object with the same contents. *)
Definition df_copy (l : nat) : M nat :=
  let* fr := ler l in novo fr.

(** [df[mask]] with [mask] computed from the rows of [df]: a new object. *)
Definition df_mask (l : nat) (pred : FactRow -> bool) : M nat :=
  let* fr := ler l in
  let mask := List.map pred (fr_rows fr) in
  novo (mkFrame (filtrar_mascara mask (fr_rows fr))
                (option_map (filtrar_mascara mask) (fr_mes fr))).

Definition com_data (r : FactRow) (d : option Date) : FactRow :=
  mkFactRow d (f_ordem r) (f_id_produto r) (f_id_cliente r) (f_qtd r)
    (f_id_loja r) (f_nome_completo r) (f_produto r) (f_tipo r) (f_marca r)
    (f_preco r) (f_nome_loja r) (f_ano r) (f_valor r).

(** [df['Data da Venda'] = col]: the object at [l] is changed in place. *)
Definition df_set_data (l : nat) (col : list (option Date)) : M unit :=
  let* fr := ler l in
  let* rows := lift (atribuir com_data (fr_rows fr) col) in
  gravar l (mkFrame rows (fr_mes fr)).

(** [df['Mês'] = col]: the object at [l] is changed in place. *)
Definition df_set_mes (l : nat) (col : list string) : M unit :=
  let* fr := ler l in
  if Nat.eqb (List.length col) (List.length (fr_rows fr))
  then gravar l (mkFrame (fr_rows fr) (Some col))
  else lift (Erro "ValueError: length of values does not match length of index").

Definition df_get_mes (l : nat) : M (list string) :=
  let* fr := ler l in
  match fr_mes fr with
  | Some col => ret col
  | None => lift (Erro "KeyError: 'Mês'")
  end.

Definition df_filtro_escalar (valor : option string)
    (col : FactRow -> option string) (l : nat) : M nat :=
  match valor with
  | Some v =>
      if truthy_str valor then df_mask l (fun r => col_eq v (col r)) else ret l
  | None => ret l
  end.

Definition df_filtro_lista (valores : option (list string))
    (col : FactRow -> option string) (l : nat) : M nat :=
  match valores with
  | Some vs =>
      if truthy_lista valores then df_mask l (fun r => isin vs (col r)) else ret l
  | None => ret l
  end.

Definition celula (d : option Date) : Cell :=
  match d with
  | Some d' => CellDate d'
  | None => CellNaN
  end.

(** Lines 152-230; [df_total] is the address of the global frame. *)
Definition atualizar_graficos (df_total : nat) (sel : Selecao) : M Figuras :=
  let* df := df_copy df_total in
  let* df := df_filtro_escalar (s_tipo sel) f_tipo df in
  let* df := df_filtro_escalar (s_marca sel) f_marca df in
  let* df := df_filtro_lista (s_produtos sel) f_produto df in
  let* df := df_filtro_lista (s_lojas sel) f_nome_loja df in
  let* df := df_filtro_lista (s_clientes sel) f_nome_completo df in
  let* fr := ler df in
  let* datas := lift (to_datetime ErrCoerce
                        (List.map (fun r => celula (f_data r)) (fr_rows fr))) in
  let* _ := df_set_data df datas in
  let* fr := ler df in
  let rows := fr_rows fr in
  let* _ := df_set_mes df (coluna_mes rows) in
  let* mes := df_get_mes df in
  let* fr' := ler df in
  ret (montar_figuras rows (vendas_mes_de mes (fr_rows fr'))).

(** ** Top-level statements that bind [app] and [server]

    Dash application objects live in [objetos]; the module's names [app]
    and [server] hold the index of the object they refer to. *)

Record DashApp := mkDashApp {
  app_layout : option Component;
  app_callbacks : list Callback }.

Record Modulo := mkModulo {
  objetos : list DashApp;
  var_app : option nat;
  var_server : option nat;
  servidos : list nat }.

Definition modulo_inicial : Modulo := mkModulo [] None None [].

(** [app = Dash(...)]. *)
Definition stmt_dash (m : Modulo) : Resultado Modulo :=
  Ok (mkModulo (objetos m ++ [mkDashApp None []])
               (Some (List.length (objetos m))) (var_server m) (servidos m)).

(** [server = app.server]. *)
Definition stmt_server (m : Modulo) : Resultado Modulo :=
  match var_app m with
  | Some a => Ok (mkModulo (objetos m) (var_app m) (Some a) (servidos m))
  | None => Erro "NameError: app"
  end.

Definition alterar_app (f : DashApp -> DashApp) (m : Modulo) : Resultado Modulo :=
  match var_app m with
  | Some a =>
      match objetos m !! a with
      | Some o => Ok (mkModulo (<[a := f o]> (objetos m)) (var_app m)
                               (var_server m) (servidos m))
      | None => Erro "NameError: app"
      end
  | None => Erro "NameError: app"
  end.

(** [app.layout = c]. *)
Definition stmt_layout (c : Component) : Modulo -> Resultado Modulo :=
  alterar_app (fun o => mkDashApp (Some c) (app_callbacks o)).

(** [@app.callback(outputs, inputs)]. *)
Definition stmt_callback (cb : Callback) : Modulo -> Resultado Modulo :=
  alterar_app (fun o => mkDashApp (app_layout o) (app_callbacks o ++ [cb])).

(** [if __name__ == '__main__': app.run_server(debug=True)]. *)
Definition stmt_run_server (is_main : bool) (m : Modulo) : Resultado Modulo :=
  if is_main then
    match var_app m with
    | Some a => Ok (mkModulo (objetos m) (var_app m) (var_server m)
                             (servidos m ++ [a]))
    | None => Erro "NameError: app"
    end
  else Ok m.

Definition cb_marcas : Callback :=
  mkCallback [("filtro_marca", "options")] [("filtro_tipo", "value")].

Definition cb_graficos : Callback :=
  mkCallback
    [("grafico_ano", "figure"); ("grafico_cliente", "figure");
     ("grafico_produto", "figure"); ("grafico_loja", "figure");
     ("grafico_pizza_tipo", "figure"); ("grafico_area_tempo", "figure")]
    [("filtro_tipo", "value"); ("filtro_marca", "value");
     ("filtro_produto", "value"); ("filtro_loja", "value");
     ("filtro_cliente", "value")].

(** Lines 73-245 in order, once [df_total] is built; [is_main] tells
    whether the file runs as a script or is imported by a WSGI server. *)
Definition executar_modulo (is_main : bool) (df_total : list FactRow)
  : Resultado Modulo :=
  bindR (stmt_dash modulo_inicial) (fun m =>
  bindR (stmt_server m) (fun m =>
  bindR (stmt_layout (layout_painel df_total) m) (fun m =>
  bindR (stmt_callback cb_marcas m) (fun m =>
  bindR (stmt_callback cb_graficos m) (fun m =>
  bindR (stmt_run_server is_main m) (fun m =>
  bindR (stmt_dash m) (fun m =>
  bindR (stmt_server m) (fun m =>
  bindR (stmt_layout layout_hello m) (fun m =>
  stmt_run_server is_main m))))))))).

(** The layout of the object a name refers to. *)
Definition layout_de (m : Modulo) (nome : option nat) : option Component :=
  match nome with
  | Some a =>
      match objetos m !! a with
      | Some o => app_layout o
      | None => None
      end
  | None => None
  end.

(** The layout behind the module's [server] once the module has run:
    what a WSGI server that imports the module serves. *)
Definition layout_servido (is_main : bool) (df_total : list FactRow)
  : option Component :=
  match executar_modulo is_main df_total with
  | Ok m => layout_de m (var_server m)
  | Erro _ => None
  end.

(** The layout of the final [app] object of the module. *)
Definition layout_final (is_main : bool) (df_total : list FactRow)
  : option Component :=
  match executar_modulo is_main df_total with
  | Ok m => layout_de m (var_app m)
  | Erro _ => None
  end.

(** The chart kinds that [atualizar_graficos] sends to each graph id. *)
Definition graficos_por_id (f : Figuras) : list (string * ChartKind) :=
  List.combine (List.map fst (cb_outputs cb_graficos))
    (List.map fig_kind [fig1 f; fig2 f; fig3 f; fig4 f; fig5 f; fig6 f]).

(** ** Predicates used in the statements *)

(** A single-select filter, when set, asks for equality with the cell. *)
Definition exige_igual (valor : option string) (c : option string) : Prop :=
  forall v, valor = Some v -> v <> ""%string -> c = Some v.

(** A multi-select filter, when set, asks for membership of the cell. *)
Definition exige_membro (valores : option (list string)) (c : option string)
  : Prop :=
  forall vs, valores = Some vs -> vs <> [] -> exists s, c = Some s /\ In s vs.

(** The conjunction of the active filter predicates on a row. *)
Definition satisfaz (sel : Selecao) (r : FactRow) : Prop :=
  exige_igual (s_tipo sel) (f_tipo r) /\
  exige_igual (s_marca sel) (f_marca r) /\
  exige_membro (s_produtos sel) (f_produto r) /\
  exige_membro (s_lojas sel) (f_nome_loja r) /\
  exige_membro (s_clientes sel) (f_nome_completo r).

(** Every field of the selection is absent or empty. *)
Definition selecao_vazia (sel : Selecao) : Prop :=
  truthy_str (s_tipo sel) = false /\
  truthy_str (s_marca sel) = false /\
  truthy_lista (s_produtos sel) = false /\
  truthy_lista (s_lojas sel) = false /\
  truthy_lista (s_clientes sel) = false.

(** The sum of the values of a series. *)
Definition total {K} (serie : list (K * Z)) : Z :=
  fold_right Z.add 0 (List.map snd serie).

Definition tem_ano (r : FactRow) : bool :=
  match f_ano r with
  | Some _ => true
  | None => false
  end.

(** Descending by summed value. *)
Definition decrescente {K} (serie : list (K * Z)) : Prop :=
  StronglySorted (fun a b => snd b <= snd a) serie.

Definition crescente_texto (l : list string) : Prop :=
  Sorted (fun a b => String.leb a b = true) l.

(** [sub] occurs inside [s]. *)
Definition contem (sub s : string) : Prop :=
  exists pre suf, s = String.append pre (String.append sub suf).

(** The sale part of a fact row. *)
Definition venda_de (f : FactRow) : Venda :=
  mkVenda (f_data f) (f_ordem f) (f_id_produto f) (f_id_cliente f) (f_qtd f)
    (f_id_loja f).

(** What [errors='coerce'] leaves in a cell. *)
Definition coerce_cell (primeiro : option Cell) (c : Cell) : option Date :=
  match c with
  | CellDate d => Some d
  | CellText s => parse_dayfirst primeiro s
  | CellNaN => None
  end.

(** The entries of a top-10 series are groups of the rows: a key that
    occurs in the key column, with the sum of line_total over its rows. *)
Definition entradas_de_grupo (chave : FactRow -> option string)
    (df : list FactRow) (serie : list (string * Z)) : Prop :=
  forall k v, In (k, v) serie ->
    In (Some k) (List.map chave df) /\
    v = soma (List.map f_valor
                (List.filter (fun r => chave_igual String.eqb k (chave r)) df)).

(** The customer columns of a fact row come from a customer with the
    row's key, or are null when no customer has it. *)
Definition casa_cliente (clientes : list Cliente) (f : FactRow) : Prop :=
  (exists c, In c clientes /\ chave_eqb (f_id_cliente f) (c_id c) = true /\
             f_nome_completo f = c_nome_completo c)
  \/ ((forall c, In c clientes -> chave_eqb (f_id_cliente f) (c_id c) = false) /\
      f_nome_completo f = None).

Definition casa_produto (produtos : list Produto) (f : FactRow) : Prop :=
  (exists p, In p produtos /\ chave_eqb (f_id_produto f) (p_id p) = true /\
             f_produto f = p_produto p /\ f_tipo f = p_tipo p /\
             f_marca f = p_marca p /\ f_preco f = p_preco p)
  \/ ((forall p, In p produtos -> chave_eqb (f_id_produto f) (p_id p) = false) /\
      f_produto f = None /\ f_tipo f = None /\ f_marca f = None /\
      f_preco f = None).

Definition casa_loja (lojas : list Loja) (f : FactRow) : Prop :=
  (exists l, In l lojas /\ chave_eqb (f_id_loja f) (l_id l) = true /\
             f_nome_loja f = l_nome l)
  \/ ((forall l, In l lojas -> chave_eqb (f_id_loja f) (l_id l) = false) /\
      f_nome_loja f = None).

(** The sales rows as the Joiner receives them. *)
Definition vendas_normalizadas (arquivos : Arquivos) : list Venda :=
  let df_vendas := concat_vendas arquivos in
  let primeiro := primeira_celula (List.map vb_data df_vendas) in
  List.map (fun v => com_data_venda v (coerce_cell primeiro (vb_data v)))
           df_vendas.

(** Conservation of the total by the sales-by-year aggregator. *)
Definition conserva_total (df : list FactRow) : Prop :=
  total (vendas_por_ano df) = soma (List.map f_valor df).

(** A selected type always offers a brand. *)
Definition marcas_nao_vazias (df_total : list FactRow) (tipo : option string)
  : Prop :=
  truthy_str tipo = true -> atualizar_marcas df_total tipo <> [].

(** The monthly trend leaves out the rows that have no date. *)
Definition mes_exclui_sem_data (df : list FactRow) : Prop :=
  total (vendas_mes df)
  = soma (List.map f_valor
            (List.filter (fun r => match f_data r with
                                   | Some _ => true
                                   | None => false
                                   end) df)).

(** The working frame at [l] holds [rows]; it is no object of the store
    [σ0] the callback started from, whose objects are all still in [σ]. *)
Definition trabalho (σ0 σ : gmap nat Frame) (l : nat) (rows : list FactRow)
  : Prop :=
  σ0 ⊆ σ /\ σ0 !! l = None /\
  exists mes, σ !! l = Some (mkFrame rows mes).

(** ** Further predicates *)

(** The reference table has at most one row per key. *)
Definition chaves_unicas {R} (key : R -> option Z) (dir : list R) : Prop :=
  NoDup (List.map key dir).

(** What one single-select filter lets through. *)
Definition passa_escalar (valor : option string) (c : option string) : bool :=
  match valor with
  | Some v => if truthy_str valor then col_eq v c else true
  | None => true
  end.

(** What one multi-select filter lets through. *)
Definition passa_lista (valores : option (list string)) (c : option string)
  : bool :=
  match valores with
  | Some vs => if truthy_lista valores then isin vs c else true
  | None => true
  end.

(** The five masks of lines 155-164 on one row. *)
Definition passa (sel : Selecao) (r : FactRow) : bool :=
  passa_escalar (s_tipo sel) (f_tipo r) &&
  passa_escalar (s_marca sel) (f_marca r) &&
  passa_lista (s_produtos sel) (f_produto r) &&
  passa_lista (s_lojas sel) (f_nome_loja r) &&
  passa_lista (s_clientes sel) (f_nome_completo r).

(** [ops] lists, ascending and without repetition, the non-null cells of [col]. *)
Definition indice_de (col : list (option string)) (ops : list string) : Prop :=
  crescente_texto ops /\ NoDup ops /\
  forall x, In x ops <-> In (Some x) col.

(** A date whose year has four digits and whose month is a month. *)
Definition mes_valido (d : Date) : Prop :=
  1000 <= d_year d <= 9999 /\ 1 <= d_month d <= 12.

(** [d1] is in an earlier month than [d2], or in the same one. *)
Definition mes_ate (d1 d2 : Date) : Prop :=
  d_year d1 < d_year d2 \/ (d_year d1 = d_year d2 /\ d_month d1 <= d_month d2).

Definition tem_loja (r : FactRow) : bool :=
  match f_nome_loja r with
  | Some _ => true
  | None => false
  end.

(** The year of a fact row is the year of its date, and is null exactly
    when the date is. *)
Definition ano_do_calendario (f : FactRow) : Prop :=
  (forall d, f_data f = Some d -> f_ano f = Some (d_year d)) /\
  (f_data f = None -> f_ano f = None).

(** The line total of a fact row is quantity times unit price, whatever
    their size. *)
Definition valor_e_produto (f : FactRow) : Prop :=
  forall q p, f_qtd f = Some q -> f_preco f = Some p ->
              f_valor f = Some (q * p).

Definition todos_valor_e_produto (df_total : list FactRow) : Prop :=
  forall f, In f df_total -> valor_e_produto f.

(** No quantity and no unit price is missing and every sale finds a
    product: the condition under which ['Qtd Vendida'] and
    ['Preço Unitario'] are int64 columns of the joined table. *)
Definition sem_valor_faltante (vendas : list Venda) (produtos : list Produto)
  : Prop :=
  (forall v, In v vendas -> v_qtd v <> None) /\
  (forall p, In p produtos -> p_preco p <> None) /\
  (forall v, In v vendas ->
     exists p, In p produtos /\ chave_eqb (v_id_produto v) (p_id p) = true).

(** The line total of a fact row as line 59 computes it: null when an
    operand is null; otherwise the product in the arithmetic of the
    columns, int64 when [inteiras] holds and float64 when it does not,
    which is quantity times unit price as long as that is below 2^53 in
    magnitude. *)
Definition valor_de_maquina (inteiras : Prop) (f : FactRow) : Prop :=
  (f_qtd f = None \/ f_preco f = None -> f_valor f = None) /\
  (forall q p, f_qtd f = Some q -> f_preco f = Some p ->
     (exists v, f_valor f = Some v) /\
     (inteiras ->
      exists v k, f_valor f = Some v /\ v = q * p + k * 2 ^ 64 /\
                  - 2 ^ 63 <= v < 2 ^ 63) /\
     (~ inteiras ->
      f_valor f = Some (float64_de_Z (float64_de_Z q * float64_de_Z p))) /\
     (Z.abs (q * p) < 2 ^ 53 -> f_valor f = Some (q * p))).

Definition tem_valor (c : option string) : bool :=
  match c with
  | Some _ => true
  | None => false
  end.

(** ** A small set of workbooks *)

Definition ex_vendas_2020 : Planilha :=
  mkPlanilha
    (mkVendaBruta (CellText "01/03/2021") (Some 1) (Some 100) (Some 1) (Some 2) (Some 10))
    [].

Definition ex_vendas_2021 : Planilha :=
  mkPlanilha
    (mkVendaBruta (CellDate (mkDate 2021 3 15)) (Some 2) (Some 101) (Some 2) (Some 1) (Some 10))
    [].

Definition ex_vendas_2022 : Planilha :=
  mkPlanilha
    (mkVendaBruta (CellText "sem data") (Some 3) (Some 102) (Some 3) (Some 1) (Some 11))
    [].

Definition ex_arquivos : Arquivos :=
  mkArquivos ex_vendas_2020 ex_vendas_2021 ex_vendas_2022.

Definition ex_clientes : CadastroClientes :=
  ClientesSeparados
    [ mkClienteSeparado (Some 1) (Some "Alice"%string) (Some "Souza"%string);
      mkClienteSeparado (Some 2) (Some "Bob"%string) (Some "Lima"%string);
      mkClienteSeparado (Some 3) None (Some "Silva"%string) ].

Definition ex_produtos : list Produto :=
  [ mkProduto (Some 100) (Some "Tenis"%string) (Some "Shoes"%string) (Some "X"%string) (Some 10);
    mkProduto (Some 101) (Some "Camisa"%string) (Some "Shirts"%string) (Some "Y"%string) (Some 20);
    mkProduto (Some 102) (Some "Meia"%string) (Some "Socks"%string) None (Some 20) ].

Definition ex_lojas : list Loja := [ mkLoja (Some 10) (Some "Centro"%string) ].

Definition ex_vendas : list Venda :=
  [ mkVenda (Some (mkDate 2021 3 1)) (Some 1) (Some 100) (Some 1) (Some 2) (Some 10);
    mkVenda (Some (mkDate 2021 3 15)) (Some 2) (Some 101) (Some 2) (Some 1) (Some 10);
    mkVenda None (Some 3) (Some 102) (Some 3) (Some 1) (Some 11) ].

(** The fact table of these workbooks. *)
Definition ex_df_total : list FactRow :=
  juntar ex_vendas (normalizar_clientes ex_clientes) ex_produtos ex_lojas.

Definition sel_nada : Selecao := mkSelecao None None None None None.

(** Workbooks with one large sale: 4294967296 units of a product priced
    4294967296, every key matched and no cell missing. *)
Definition ex_venda_grande (ordem : Z) : VendaBruta :=
  mkVendaBruta (CellDate (mkDate 2021 3 15)) (Some ordem) (Some 100) (Some 1)
    (Some 4294967296) (Some 10).

Definition ex_arquivos_grandes : Arquivos :=
  mkArquivos (mkPlanilha (ex_venda_grande 1) [])
             (mkPlanilha (ex_venda_grande 2) [])
             (mkPlanilha (ex_venda_grande 3) []).

Definition ex_produtos_caros : list Produto :=
  [ mkProduto (Some 100) (Some "Tenis"%string) (Some "Shoes"%string)
      (Some "X"%string) (Some 4294967296) ].

Definition ex_df_grande : list FactRow :=
  juntar
    [ mkVenda (Some (mkDate 2021 3 15)) (Some 1) (Some 100) (Some 1) (Some 4294967296) (Some 10);
      mkVenda (Some (mkDate 2021 3 15)) (Some 2) (Some 100) (Some 1) (Some 4294967296) (Some 10);
      mkVenda (Some (mkDate 2021 3 15)) (Some 3) (Some 100) (Some 1) (Some 4294967296) (Some 10) ]
    (normalizar_clientes ex_clientes) ex_produtos_caros ex_lojas.

Definition sel_socks : Selecao :=
  mkSelecao (Some "Socks"%string) None None (Some []) None.

(** * Facts *)

(** ** Lists, masks and sums *)

Lemma filtrar_mascara_map {A} (p : A -> bool) (l : list A) :
  filtrar_mascara (List.map p l) l = List.filter p l.
Proof.
  induction l as [|a l IH]; simpl; [reflexivity|].
  rewrite IH. reflexivity.
Qed.

Lemma dropna_In {A} (a : A) (col : list (option A)) :
  In a (dropna col) <-> In (Some a) col.
Proof.
  induction col as [|[b|] col IH]; simpl.
  - tauto.
  - rewrite IH. split; intros [H|H]; auto; left; congruence.
  - rewrite IH. split; [auto|]. intros [H|H]; [discriminate|assumption].
Qed.

Lemma soma_cons (v : option Z) (col : list (option Z)) :
  soma (v :: col) = peso v + soma col.
Proof. destruct v; reflexivity. Qed.

Lemma filter_map_comm {A B} (f : B -> bool) (g : A -> B) (l : list A) :
  List.filter f (List.map g l) = List.map g (List.filter (fun x => f (g x)) l).
Proof.
  induction l as [|a l IH]; simpl; [reflexivity|].
  destruct (f (g a)); simpl; rewrite IH; reflexivity.
Qed.

Section FatosChaves.
Context {K : Type}.
Variable eqb : K -> K -> bool.
Variable leb : K -> K -> bool.
Hypothesis eqb_eq : forall x y, eqb x y = true <-> x = y.
Hypothesis leb_total : forall x y, leb x y = true \/ leb y x = true.

Lemma inserir_perm (x : K) (l : list K) :
  Permutation (x :: l) (inserir leb x l).
Proof.
  induction l as [|h t IH]; simpl; [reflexivity|].
  destruct (leb x h); [reflexivity|].
  rewrite perm_swap. constructor. exact IH.
Qed.

Lemma sorted_perm (l : list K) : Permutation l (sorted leb l).
Proof.
  induction l as [|x l IH]; simpl; [constructor|].
  rewrite <- inserir_perm. constructor. exact IH.
Qed.

Lemma sorted_In (x : K) (l : list K) : In x (sorted leb l) <-> In x l.
Proof.
  split; apply Permutation_in; [symmetry|]; apply sorted_perm.
Qed.

Lemma inserir_HdRel (a x : K) (l : list K) :
  leb a x = true ->
  HdRel (fun a b => leb a b = true) a l ->
  HdRel (fun a b => leb a b = true) a (inserir leb x l).
Proof.
  intros Hax Hl. destruct l as [|h t]; simpl.
  - constructor. exact Hax.
  - destruct (leb x h); constructor; [exact Hax|].
    inversion Hl; assumption.
Qed.

Lemma inserir_Sorted (x : K) (l : list K) :
  Sorted (fun a b => leb a b = true) l ->
  Sorted (fun a b => leb a b = true) (inserir leb x l).
Proof.
  induction l as [|h t IH]; intros Hs; simpl.
  - repeat constructor.
  - destruct (leb x h) eqn:E.
    + constructor; [exact Hs|]. constructor. exact E.
    + inversion Hs as [|? ? Ht Hh]; subst.
      constructor; [apply IH; exact Ht|].
      apply inserir_HdRel; [|exact Hh].
      destruct (leb_total x h) as [H|H]; [congruence|exact H].
Qed.

Lemma sorted_Sorted (l : list K) :
  Sorted (fun a b => leb a b = true) (sorted leb l).
Proof.
  induction l as [|x l IH]; simpl; [constructor|].
  apply inserir_Sorted. exact IH.
Qed.

Lemma eqb_refl_K (x : K) : eqb x x = true.
Proof. apply eqb_eq. reflexivity. Qed.

Lemma unique_In (x : K) (l : list K) : In x (unique eqb l) <-> In x l.
Proof.
  induction l as [|a l IH]; simpl; [tauto|].
  rewrite filter_In, IH. split.
  - intros [H|[H _]]; auto.
  - intros [H|H]; [left; exact H|].
    destruct (eqb a x) eqn:E.
    + left. apply eqb_eq. exact E.
    + right. split; [exact H|reflexivity].
Qed.

Lemma unique_NoDup (l : list K) : NoDup (unique eqb l).
Proof.
  induction l as [|a l IH]; simpl; constructor.
  - rewrite filter_In. intros [_ H]. rewrite eqb_refl_K in H. discriminate.
  - apply NoDup_filter. exact IH.
Qed.

Lemma chaves_NoDup (col : list (option K)) :
  NoDup (sorted leb (unique eqb (dropna col))).
Proof.
  eapply Permutation_NoDup; [apply sorted_perm|apply unique_NoDup].
Qed.

Lemma chaves_In (k : K) (col : list (option K)) :
  In k (sorted leb (unique eqb (dropna col))) <-> In (Some k) col.
Proof. rewrite sorted_In, unique_In. apply dropna_In. Qed.

Lemma groupby_sum_chaves (pares : list (option K * option Z)) :
  List.map fst (groupby_sum eqb leb pares)
  = sorted leb (unique eqb (dropna (List.map fst pares))).
Proof.
  unfold groupby_sum. rewrite map_map. simpl. apply map_id.
Qed.

Lemma groupby_sum_In (k : K) (v : Z) (pares : list (option K * option Z)) :
  In (k, v) (groupby_sum eqb leb pares) <->
  In (Some k) (List.map fst pares) /\
  v = soma (valores_do_grupo eqb k pares).
Proof.
  unfold groupby_sum. rewrite in_map_iff. split.
  - intros [k' [E Hk]]. inversion E; subst.
    split; [apply chaves_In; exact Hk|reflexivity].
  - intros [Hk ->]. exists k. split; [reflexivity|].
    apply chaves_In. exact Hk.
Qed.

Lemma soma_indicador (k0 : K) (z : Z) (ks : list K) :
  NoDup ks ->
  fold_right Z.add 0 (List.map (fun k => if eqb k k0 then z else 0) ks)
  = if existsb (fun k => eqb k k0) ks then z else 0.
Proof.
  induction 1 as [|k ks Hk Hnd IH]; simpl; [reflexivity|].
  rewrite IH. destruct (eqb k k0) eqn:E; simpl; [|reflexivity].
  apply eqb_eq in E. subst k0.
  destruct (existsb (fun k' => eqb k' k) ks) eqn:Ex; [|lia].
  apply existsb_exists in Ex. destruct Ex as [k' [Hin Hk']].
  apply eqb_eq in Hk'. subst k'. contradiction.
Qed.

Lemma soma_grupos_em (ks : list K) (pares : list (option K * option Z)) :
  NoDup ks ->
  fold_right Z.add 0
    (List.map (fun k => soma (valores_do_grupo eqb k pares)) ks)
  = soma (List.map snd
            (List.filter (fun p => chave_em eqb ks (fst p)) pares)).
Proof.
  intros Hnd. induction pares as [|[c v] pares IH].
  - simpl. induction ks as [|k ks IHk]; simpl; [reflexivity|].
    inversion Hnd; subst. rewrite IHk by assumption. reflexivity.
  - destruct c as [k0|].
    + transitivity
        (fold_right Z.add 0
           (List.map (fun k => if eqb k k0 then peso v else 0) ks)
         + fold_right Z.add 0
             (List.map (fun k => soma (valores_do_grupo eqb k pares)) ks)).
      * clear IH Hnd. induction ks as [|k ks IHk]; simpl; [reflexivity|].
        rewrite IHk. unfold valores_do_grupo at 1. simpl.
        destruct (eqb k k0); simpl.
        -- rewrite soma_cons. fold (valores_do_grupo eqb k pares). lia.
        -- fold (valores_do_grupo eqb k pares). lia.
      * rewrite soma_indicador by exact Hnd. rewrite IH. simpl.
        destruct (existsb (fun k' => eqb k' k0) ks); simpl.
        -- rewrite soma_cons. reflexivity.
        -- reflexivity.
    + simpl. rewrite <- IH. apply f_equal. apply map_ext.
      intros k. reflexivity.
Qed.

(** The group sums add up to the sum over the rows that have a key. *)
Lemma groupby_sum_total (pares : list (option K * option Z)) :
  total (groupby_sum eqb leb pares)
  = soma (List.map snd (List.filter tem_chave pares)).
Proof.
  unfold total, groupby_sum. rewrite map_map. simpl.
  rewrite soma_grupos_em by apply chaves_NoDup.
  do 2 apply f_equal. apply filter_ext_in.
  intros [c v] Hin. unfold tem_chave. simpl. destruct c as [k|]; simpl; [|reflexivity].
  apply existsb_exists. exists k. split; [|apply eqb_refl_K].
  apply chaves_In. apply in_map_iff. exists (Some k, v). auto.
Qed.
End FatosChaves.

(** ** Query Engine *)

Lemma col_eq_true (v : string) (c : option string) :
  col_eq v c = true <-> c = Some v.
Proof.
  destruct c as [s|]; simpl.
  - rewrite String.eqb_eq. split; congruence.
  - split; discriminate.
Qed.

Lemma isin_true (vs : list string) (c : option string) :
  isin vs c = true <-> exists s, c = Some s /\ In s vs.
Proof.
  destruct c as [s|]; simpl.
  - rewrite existsb_exists. split.
    + intros [x [Hin E]]. apply String.eqb_eq in E. subst x. eauto.
    + intros [x [E Hin]]. inversion E; subst. exists x.
      split; [exact Hin|apply String.eqb_refl].
  - split; [discriminate|]. intros [s [E _]]. discriminate.
Qed.

Lemma filtro_escalar_In (valor : option string)
    (col : FactRow -> option string) (df : list FactRow) (r : FactRow) :
  In r (filtro_escalar valor col df) <-> In r df /\ exige_igual valor (col r).
Proof.
  unfold filtro_escalar, exige_igual. destruct valor as [v|].
  - simpl. destruct (String.eqb v "") eqn:E; simpl.
    + apply String.eqb_eq in E. split; [|tauto].
      intros H. split; [exact H|]. intros v' Hv Hne. congruence.
    + apply String.eqb_neq in E.
      rewrite filtrar_mascara_map, filter_In, col_eq_true. split.
      * intros [H1 H2]. split; [exact H1|]. intros v' Hv _. congruence.
      * intros [H1 H2]. split; [exact H1|]. apply H2; [reflexivity|exact E].
  - split; [|tauto]. intros H. split; [exact H|]. intros v Hv. discriminate.
Qed.

Lemma filtro_lista_In (valores : option (list string))
    (col : FactRow -> option string) (df : list FactRow) (r : FactRow) :
  In r (filtro_lista valores col df) <-> In r df /\ exige_membro valores (col r).
Proof.
  unfold filtro_lista, exige_membro. destruct valores as [[|a vs]|]; simpl.
  - split; [|tauto]. intros H. split; [exact H|]. intros vs E Hne. congruence.
  - rewrite filtrar_mascara_map, filter_In, isin_true. split.
    + intros [H1 H2]. split; [exact H1|]. intros vs' E _.
      inversion E; subst. exact H2.
    + intros [H1 H2]. split; [exact H1|]. apply H2; [reflexivity|discriminate].
  - split; [|tauto]. intros H. split; [exact H|]. intros vs E. discriminate.
Qed.

(** C2. For every selection, a row is in the Query Engine's output exactly
    when it is a row of the fact table that satisfies every active filter:
    equality with the cell for the type and the brand, membership of the
    cell for products, stores and customers, all of them together; a
    field that is absent or empty asks nothing. *)
Theorem query_engine_rows (df_total : list FactRow) (sel : Selecao)
    (r : FactRow) :
  In r (query_engine df_total sel) <-> In r df_total /\ satisfaz sel r.
Proof.
  unfold query_engine, satisfaz.
  rewrite !filtro_lista_In, !filtro_escalar_In. tauto.
Qed.

(** C3. When every field of the selection is absent or empty, the Query
    Engine returns the fact table itself, rows and order unchanged. *)
Theorem query_engine_identity (df_total : list FactRow) (sel : Selecao) :
  selecao_vazia sel -> query_engine df_total sel = df_total.
Proof.
  intros (Ht & Hm & Hp & Hl & Hc). unfold query_engine.
  unfold filtro_lista, filtro_escalar.
  rewrite Ht, Hm, Hp, Hl, Hc.
  destruct (s_tipo sel), (s_marca sel), (s_produtos sel), (s_lojas sel),
    (s_clientes sel); reflexivity.
Qed.

(** ** Aggregators *)

Lemma String_eqb_eq' (x y : string) : String.eqb x y = true <-> x = y.
Proof. apply String.eqb_eq. Qed.

Lemma Zleb_total (x y : Z) : (x <=? y) = true \/ (y <=? x) = true.
Proof. rewrite !Z.leb_le. lia. Qed.

Lemma vendas_por_ano_total (df : list FactRow) :
  total (vendas_por_ano df)
  = soma (List.map f_valor (List.filter tem_ano df)).
Proof.
  unfold vendas_por_ano.
  rewrite (groupby_sum_total Z.eqb Z.leb Z.eqb_eq).
  rewrite filter_map_comm, map_map. reflexivity.
Qed.


Lemma inserir_desc_perm {K} (x : K * Z) (l : list (K * Z)) :
  Permutation (x :: l) (inserir_desc x l).
Proof.
  induction l as [|h t IH]; simpl; [reflexivity|].
  destruct (snd h <=? snd x); [reflexivity|].
  rewrite perm_swap. constructor. exact IH.
Qed.

Lemma ordenar_desc_perm {K} (l : list (K * Z)) :
  Permutation l (ordenar_desc l).
Proof.
  induction l as [|x l IH]; simpl; [constructor|].
  rewrite <- inserir_desc_perm. constructor. exact IH.
Qed.

Lemma inserir_desc_decrescente {K} (x : K * Z) (l : list (K * Z)) :
  decrescente l -> decrescente (inserir_desc x l).
Proof.
  unfold decrescente. induction l as [|h t IH]; intros Hs; simpl.
  - repeat constructor.
  - inversion Hs as [|? ? Ht Hh]; subst.
    destruct (snd h <=? snd x) eqn:E.
    + apply Z.leb_le in E. constructor; [exact Hs|].
      constructor; [exact E|].
      eapply Forall_impl; [|exact Hh]. simpl. intros b Hb. lia.
    + apply Z.leb_gt in E. constructor; [apply IH; exact Ht|].
      eapply Permutation_Forall; [apply inserir_desc_perm|].
      constructor; [lia|exact Hh].
Qed.

Lemma ordenar_desc_decrescente {K} (l : list (K * Z)) :
  decrescente (ordenar_desc l).
Proof.
  induction l as [|x l IH]; simpl; [constructor|].
  apply inserir_desc_decrescente. exact IH.
Qed.

Lemma firstn_In {A} (n : nat) (l : list A) (x : A) :
  In x (firstn n l) -> In x l.
Proof.
  intros H. rewrite <- (firstn_skipn n l). apply in_or_app. left. exact H.
Qed.

Lemma firstn_decrescente {K} (n : nat) (l : list (K * Z)) :
  decrescente l -> decrescente (firstn n l).
Proof.
  unfold decrescente. revert l. induction n as [|n IH]; intros l Hs; simpl.
  - constructor.
  - destruct l as [|a l]; [constructor|].
    inversion Hs as [|? ? Ht Hh]; subst.
    constructor; [apply IH; exact Ht|].
    apply Forall_forall. intros b Hb.
    apply (proj1 (Forall_forall _ _) Hh). eapply firstn_In; eauto.
Qed.

Lemma nlargest_facts {K} (n : nat) (serie : list (K * Z)) :
  (List.length (nlargest n serie) <= n)%nat /\
  decrescente (nlargest n serie) /\
  (forall e, In e (nlargest n serie) -> In e serie).
Proof.
  unfold nlargest. split; [apply firstn_le_length|]. split.
  - apply firstn_decrescente, ordenar_desc_decrescente.
  - intros e He. apply firstn_In in He.
    eapply Permutation_in; [symmetry; apply ordenar_desc_perm|exact He].
Qed.

Lemma top10_de (chave : FactRow -> option string) (df : list FactRow) :
  let serie :=
    nlargest 10 (groupby_sum String.eqb String.leb (List.map (par chave) df)) in
  (List.length serie <= 10)%nat /\ decrescente serie /\
  entradas_de_grupo chave df serie.
Proof.
  intros serie.
  destruct (nlargest_facts 10
    (groupby_sum String.eqb String.leb (List.map (par chave) df)))
    as (Hlen & Hdec & Hin).
  split; [exact Hlen|]. split; [exact Hdec|].
  intros k v Hkv. apply Hin in Hkv.
  apply (groupby_sum_In String.eqb String.leb String_eqb_eq') in Hkv.
  destruct Hkv as [Hk ->]. rewrite map_map in Hk. split; [exact Hk|].
  unfold valores_do_grupo. rewrite filter_map_comm, map_map. reflexivity.
Qed.

(** C5. For every filtered subset, the top customers and the top products
    each have at most 10 entries, ordered descending by the summed value;
    each entry is a group key with the sum of line_total of its rows. *)
Theorem top10_bounded_sorted (df_total : list FactRow) (sel : Selecao) :
  let df := query_engine df_total sel in
  ((List.length (top_clientes df) <= 10)%nat /\
   decrescente (top_clientes df) /\
   entradas_de_grupo f_nome_completo df (top_clientes df)) /\
  ((List.length (top_produtos df) <= 10)%nat /\
   decrescente (top_produtos df) /\
   entradas_de_grupo f_produto df (top_produtos df)).
Proof.
  intros df. split; [apply (top10_de f_nome_completo)|apply (top10_de f_produto)].
Qed.

(** ** Brand cascade *)

Lemma distintos_In (b : string) (col : list (option string)) :
  In b (distintos col) <-> In (Some b) col.
Proof.
  unfold distintos. rewrite (unique_In String.eqb String_eqb_eq').
  apply dropna_In.
Qed.

Lemma ordenar_textos_In (b : string) (l : list string) :
  In b (ordenar_textos l) <-> In b l.
Proof. apply sorted_In. Qed.

Lemma ordenar_textos_NoDup (l : list string) :
  NoDup l -> NoDup (ordenar_textos l).
Proof. apply Permutation_NoDup, sorted_perm. Qed.

Lemma atualizar_marcas_selected (df_total : list FactRow) (t : string) :
  t <> ""%string ->
  atualizar_marcas df_total (Some t)
  = ordenar_textos
      (distintos (List.map f_marca
         (List.filter (fun r => col_eq t (f_tipo r)) df_total))).
Proof.
  intros Hne. unfold atualizar_marcas. simpl.
  apply String.eqb_neq in Hne. rewrite Hne. simpl.
  rewrite filtrar_mascara_map. reflexivity.
Qed.

(** C6 (amended). The brand candidate list is empty when the type is
    absent or empty; when a type is selected it is, in sorted order and
    without repetition, exactly the non-null brands of the fact-table rows
    whose type equals the selected one. *)
Theorem atualizar_marcas_spec (df_total : list FactRow) (tipo : option string) :
  (truthy_str tipo = false -> atualizar_marcas df_total tipo = []) /\
  (forall t, tipo = Some t -> t <> ""%string ->
     crescente_texto (atualizar_marcas df_total tipo) /\
     NoDup (atualizar_marcas df_total tipo) /\
     forall b, In b (atualizar_marcas df_total tipo) <->
               exists r, In r df_total /\ f_tipo r = Some t /\ f_marca r = Some b).
Proof.
  split.
  - intros H. unfold atualizar_marcas. destruct tipo; [rewrite H|]; reflexivity.
  - intros t -> Hne. rewrite atualizar_marcas_selected by exact Hne.
    split; [apply sorted_Sorted, String.leb_total|]. split.
    + apply ordenar_textos_NoDup, unique_NoDup, String_eqb_eq'.
    + intros b. rewrite ordenar_textos_In, distintos_In, in_map_iff. split.
      * intros [r [Hb Hr]]. apply filter_In in Hr. destruct Hr as [Hr Ht].
        apply col_eq_true in Ht. eauto.
      * intros [r (Hr & Ht & Hb)]. exists r. split; [exact Hb|].
        apply filter_In. split; [exact Hr|]. apply col_eq_true. exact Ht.
Qed.

(** ** Normalizer and Joiner *)

Lemma to_datetime_com_coerce (primeiro : option Cell) (col : list Cell) :
  to_datetime_com primeiro ErrCoerce col
  = Ok (List.map (coerce_cell primeiro) col).
Proof.
  induction col as [|c col IH]; simpl; [reflexivity|].
  rewrite IH. destruct c as [d|s|]; simpl; try reflexivity.
  destruct (parse_dayfirst primeiro s); reflexivity.
Qed.

Lemma to_datetime_coerce (col : list Cell) :
  to_datetime ErrCoerce col
  = Ok (List.map (coerce_cell (primeira_celula col)) col).
Proof. apply to_datetime_com_coerce. Qed.

Lemma atribuir_map {A B C} (f : A -> B -> C) (g : A -> B) (rows : list A) :
  atribuir f rows (List.map g rows) = Ok (List.map (fun r => f r (g r)) rows).
Proof.
  induction rows as [|r rows IH]; simpl; [reflexivity|].
  rewrite IH. reflexivity.
Qed.

Lemma normalizar_vendas_ok (df_vendas : list VendaBruta) :
  normalizar_vendas df_vendas
  = Ok (List.map
          (fun v => com_data_venda v
                      (coerce_cell (primeira_celula (List.map vb_data df_vendas))
                                   (vb_data v)))
          df_vendas).
Proof.
  unfold normalizar_vendas. rewrite to_datetime_coerce. simpl.
  rewrite map_map.
  apply (atribuir_map com_data_venda
           (fun v => coerce_cell (primeira_celula (List.map vb_data df_vendas))
                                 (vb_data v))).
Qed.

Lemma merge_left_In {L R} (kl : L -> option Z) (kr : R -> option Z)
    (esq : list L) (dir : list R) (l : L) (o : option R) :
  In (l, o) (merge_left kl kr esq dir) <->
  In l esq /\
  match o with
  | Some r => In r dir /\ chave_eqb (kl l) (kr r) = true
  | None => forall r, In r dir -> chave_eqb (kl l) (kr r) = false
  end.
Proof.
  unfold merge_left. rewrite in_flat_map. split.
  - intros [l' [Hl' Hin]].
    destruct (List.filter (fun r => chave_eqb (kl l') (kr r)) dir) as [|r0 rs] eqn:E.
    + destruct Hin as [Hin|[]]. inversion Hin; subst. split; [exact Hl'|].
      intros r Hr. destruct (chave_eqb (kl l) (kr r)) eqn:Ek; [|reflexivity].
      assert (Hf : In r (List.filter (fun r => chave_eqb (kl l) (kr r)) dir))
        by (apply filter_In; auto).
      rewrite E in Hf. destruct Hf.
    + apply in_map_iff in Hin. destruct Hin as [r [Heq Hr]].
      inversion Heq; subst. split; [exact Hl'|].
      rewrite <- E in Hr. apply filter_In in Hr. exact Hr.
  - intros [Hl Ho]. exists l. split; [exact Hl|].
    destruct o as [r|].
    + destruct Ho as [Hr Hk].
      assert (Hf : In r (List.filter (fun r => chave_eqb (kl l) (kr r)) dir))
        by (apply filter_In; auto).
      destruct (List.filter (fun r => chave_eqb (kl l) (kr r)) dir) as [|r0 rs];
        [destruct Hf|].
      apply in_map_iff. exists r. auto.
    + destruct (List.filter (fun r => chave_eqb (kl l) (kr r)) dir) as [|r0 rs] eqn:E;
        [left; reflexivity|].
      assert (Hf : In r0 (List.filter (fun r => chave_eqb (kl l) (kr r)) dir))
        by (rewrite E; left; reflexivity).
      apply filter_In in Hf. destruct Hf as [Hr Hk].
      rewrite (Ho r0 Hr) in Hk. discriminate.
Qed.

Lemma merge_left_retains {L R} (kl : L -> option Z) (kr : R -> option Z)
    (esq : list L) (dir : list R) (l : L) :
  In l esq -> exists o, In (l, o) (merge_left kl kr esq dir).
Proof.
  intros Hl.
  destruct (List.filter (fun r => chave_eqb (kl l) (kr r)) dir) as [|r0 rs] eqn:E.
  - exists None. apply merge_left_In. split; [exact Hl|].
    intros r Hr. destruct (chave_eqb (kl l) (kr r)) eqn:Ek; [|reflexivity].
    assert (Hf : In r (List.filter (fun r => chave_eqb (kl l) (kr r)) dir))
      by (apply filter_In; auto).
    rewrite E in Hf. destruct Hf.
  - exists (Some r0). apply merge_left_In. split; [exact Hl|].
    assert (Hf : In r0 (List.filter (fun r => chave_eqb (kl l) (kr r)) dir))
      by (rewrite E; left; reflexivity).
    apply filter_In in Hf. exact Hf.
Qed.

Lemma juntar_In (vendas : list Venda) (clientes : list Cliente)
    (produtos : list Produto) (lojas : list Loja) (f : FactRow) :
  In f (juntar vendas clientes produtos lojas) <->
  exists v c p l,
    f = linha_total (colunas_inteiras vendas produtos) (v, c, p, l) /\
    In v vendas /\
    match c with
    | Some c' => In c' clientes /\ chave_eqb (v_id_cliente v) (c_id c') = true
    | None => forall c', In c' clientes -> chave_eqb (v_id_cliente v) (c_id c') = false
    end /\
    match p with
    | Some p' => In p' produtos /\ chave_eqb (v_id_produto v) (p_id p') = true
    | None => forall p', In p' produtos -> chave_eqb (v_id_produto v) (p_id p') = false
    end /\
    match l with
    | Some l' => In l' lojas /\ chave_eqb (v_id_loja v) (l_id l') = true
    | None => forall l', In l' lojas -> chave_eqb (v_id_loja v) (l_id l') = false
    end.
Proof.
  unfold juntar. rewrite in_map_iff. split.
  - intros [[[[v c] p] l] [Hf Hin]].
    apply merge_left_In in Hin. destruct Hin as [Hin Hl].
    apply merge_left_In in Hin. destruct Hin as [Hin Hp].
    apply merge_left_In in Hin. destruct Hin as [Hin Hc].
    exists v, c, p, l. simpl in *. auto.
  - intros (v & c & p & l & Hf & Hv & Hc & Hp & Hl).
    exists (v, c, p, l). split; [auto|].
    apply merge_left_In. split; [|exact Hl].
    apply merge_left_In. split; [|exact Hp].
    apply merge_left_In. split; [exact Hv|exact Hc].
Qed.

Lemma venda_de_linha_total (inteiras : bool) (v : Venda) (c : option Cliente)
    (p : option Produto) (l : option Loja) :
  venda_de (linha_total inteiras (v, c, p, l)) = v.
Proof. destruct v; reflexivity. Qed.

Lemma wrap64_mod (z : Z) :
  exists k, wrap64 z = z + k * 2 ^ 64 /\ - 2 ^ 63 <= wrap64 z < 2 ^ 63.
Proof.
  unfold wrap64.
  change (2 ^ 63) with 9223372036854775808.
  change (2 ^ 64) with 18446744073709551616.
  exists (- ((z + 9223372036854775808) / 18446744073709551616)).
  Z.div_mod_to_equations. lia.
Qed.

Lemma wrap64_pequeno (z : Z) : Z.abs z < 2 ^ 53 -> wrap64 z = z.
Proof.
  unfold wrap64.
  change (2 ^ 53) with 9007199254740992.
  change (2 ^ 63) with 9223372036854775808.
  change (2 ^ 64) with 18446744073709551616.
  intros H. rewrite Z.mod_small by lia. lia.
Qed.

Lemma float64_de_Z_pequeno (z : Z) : Z.abs z < 2 ^ 53 -> float64_de_Z z = z.
Proof.
  intros H. unfold float64_de_Z.
  assert (Hl : Z.log2 (Z.abs z) - 52 <= 0).
  { destruct (Z.eq_dec (Z.abs z) 0) as [E|E].
    - rewrite E. simpl. lia.
    - assert (Z.log2 (Z.abs z) < 53) by (apply Z.log2_lt_pow2; lia). lia. }
  apply Z.leb_le in Hl. rewrite Hl. reflexivity.
Qed.

Lemma produto_pequeno (inteiras : bool) (q p : Z) :
  Z.abs (q * p) < 2 ^ 53 -> produto inteiras q p = q * p.
Proof.
  intros H. unfold produto. destruct inteiras.
  - apply wrap64_pequeno. exact H.
  - destruct (Z.eq_dec q 0) as [->|Hq].
    { rewrite (float64_de_Z_pequeno 0) by (simpl; lia). reflexivity. }
    destruct (Z.eq_dec p 0) as [->|Hp].
    { rewrite (float64_de_Z_pequeno 0) by (simpl; lia).
      rewrite !Z.mul_0_r. apply float64_de_Z_pequeno. simpl. lia. }
    rewrite Z.abs_mul in H.
    assert (Hq1 : Z.abs q < 2 ^ 53) by nia.
    assert (Hp1 : Z.abs p < 2 ^ 53) by nia.
    rewrite (float64_de_Z_pequeno q Hq1), (float64_de_Z_pequeno p Hp1).
    apply float64_de_Z_pequeno. rewrite Z.abs_mul. exact H.
Qed.

(** [float64_de_Z] and the float64 product against the machine's binary64
    numbers, at values around the 53-bit limit and at ties. *)
Lemma float64_de_Z_binary64 :
  forallb (fun z => match binary64_valor (binary64_de_Z z) with
                    | Some v => v =? float64_de_Z z
                    | None => false
                    end)
    [0; 1; -7; 2 ^ 53 - 1; 2 ^ 53; 2 ^ 53 + 1; 2 ^ 53 + 2; 2 ^ 53 + 3;
     2 ^ 54 + 1; 2 ^ 54 + 2; 2 ^ 54 + 3; 2 ^ 54 + 6; - (2 ^ 53 + 1);
     - (2 ^ 53 + 3); 2 ^ 60 + 12345; 2 ^ 62 - 1; 2 ^ 62 + 2 ^ 9;
     2 ^ 62 + 3 * 2 ^ 9; 2 ^ 62 + 2 ^ 9 + 1; 123456789012345678]
  = true /\
  forallb (fun qp => match produto_binary64 (fst qp) (snd qp) with
                     | Some v => v =? produto false (fst qp) (snd qp)
                     | None => false
                     end)
    [(2, 10); (94906267, 94906267); (4294967296, 4294967296);
     (3037000500, 3037000501); (2 ^ 52 + 1, 3); (2 ^ 40 + 1, 2 ^ 40 + 3);
     (- (2 ^ 40 + 1), 2 ^ 40 + 3); (123456789, 987654321987); (0, 2 ^ 53 - 1)]
  = true /\
  produto false 94906267 94906267 = 9007199515875288 /\
  94906267 * 94906267 = 9007199515875289.
Proof. vm_compute. repeat split. Qed.

Lemma tem_numero_true (c : option Z) : tem_numero c = true <-> c <> None.
Proof. destruct c; simpl; split; congruence. Qed.

Lemma colunas_inteiras_iff (vendas : list Venda) (produtos : list Produto) :
  colunas_inteiras vendas produtos = true <-> sem_valor_faltante vendas produtos.
Proof.
  unfold colunas_inteiras, sem_valor_faltante.
  rewrite !andb_true_iff, !forallb_forall. split.
  - intros [[Hq Hp] Hm]. split; [|split].
    + intros v Hv. apply tem_numero_true, Hq, Hv.
    + intros p Hin. apply tem_numero_true, Hp, Hin.
    + intros v Hv. apply existsb_exists, Hm, Hv.
  - intros (Hq & Hp & Hm). split; [split|].
    + intros v Hv. apply tem_numero_true, Hq, Hv.
    + intros p Hin. apply tem_numero_true, Hp, Hin.
    + intros v Hv. apply existsb_exists, Hm, Hv.
Qed.

Lemma linha_total_valor (inteiras : bool) (v : Venda) (c : option Cliente)
    (p : option Produto) (l : option Loja) :
  valor_de_maquina (inteiras = true) (linha_total inteiras (v, c, p, l)).
Proof.
  unfold valor_de_maquina. simpl. split.
  - intros [H|H]; rewrite H; [reflexivity|].
    destruct (v_qtd v); reflexivity.
  - intros q0 p0 Hq Hp. rewrite Hq, Hp. simpl.
    split; [eexists; reflexivity|]. split; [|split].
    + intros ->. simpl. destruct (wrap64_mod (q0 * p0)) as (k & Ek & Hr).
      exists (wrap64 (q0 * p0)), k. auto.
    + intros Hn. apply not_true_is_false in Hn. rewrite Hn. reflexivity.
    + intros Hs. rewrite (produto_pequeno inteiras q0 p0 Hs). reflexivity.
Qed.

Lemma valor_de_maquina_iff (P Q : Prop) (f : FactRow) :
  (P <-> Q) -> valor_de_maquina P f -> valor_de_maquina Q f.
Proof.
  intros HPQ [Hn Hv]. split; [exact Hn|].
  intros q p Hq Hp. destruct (Hv q p Hq Hp) as (H1 & H2 & H3 & H4).
  split; [exact H1|]. split; [|split; [|exact H4]].
  - intros HQ. apply H2, HPQ, HQ.
  - intros HQ. apply H3. intros HP. apply HQ, HPQ, HP.
Qed.

(** The first cell that is not missing, and only missing cells before it. *)
Lemma primeira_celula_spec (col : list Cell) :
  match primeira_celula col with
  | Some c =>
      c <> CellNaN /\
      exists antes depois,
        col = antes ++ c :: depois /\ Forall (fun x => x = CellNaN) antes
  | None => Forall (fun x => x = CellNaN) col
  end.
Proof.
  induction col as [|c col IH]; simpl; [constructor|].
  destruct c as [d|s|].
  - split; [discriminate|]. exists [], col. split; [reflexivity|constructor].
  - split; [discriminate|]. exists [], col. split; [reflexivity|constructor].
  - destruct (primeira_celula col) as [c0|].
    + destruct IH as (Hc & antes & depois & E & Hall). split; [exact Hc|].
      exists (CellNaN :: antes), depois. rewrite E. split; [reflexivity|].
      constructor; [reflexivity|exact Hall].
    + constructor; [reflexivity|exact IH].
Qed.


(** ** Full names with a missing part *)

Lemma append_associativa (s t u : string) :
  String.append s (String.append t u) = String.append (String.append s t) u.
Proof.
  induction s as [|a s IH]; [reflexivity|].
  change (String a (String.append s (String.append t u))
          = String a (String.append (String.append s t) u)).
  rewrite IH. reflexivity.
Qed.

Lemma contem_nan (c : ClienteSeparado) :
  cs_primeiro_nome c = None \/ cs_sobrenome c = None ->
  contem "nan" (nome_completo c).
Proof.
  unfold contem, nome_completo. intros [H|H]; rewrite H; simpl.
  - exists ""%string, (String.append " " (astype_str (cs_sobrenome c))).
    reflexivity.
  - exists (String.append (astype_str (cs_primeiro_nome c)) " "), ""%string.
    apply append_associativa.
Qed.

(** C10. When the customer workbook has separate first and last names and
    a customer has a null in either, the customer's full name is a
    non-null text that contains [nan]; a sale of that customer carries it
    in the fact table, the Filter Index keeps it, the customer dropdown
    offers it, and it is a group key of the top-10 customers aggregator
    (an entry of its result when there are at most 10 groups). *)
Theorem nome_completo_nan (vendas : list Venda) (linhas : list ClienteSeparado)
    (produtos : list Produto) (lojas : list Loja)
    (c : ClienteSeparado) (v : Venda) :
  In c linhas ->
  cs_primeiro_nome c = None \/ cs_sobrenome c = None ->
  In v vendas ->
  chave_eqb (v_id_cliente v) (cs_id c) = true ->
  let df_total :=
    juntar vendas (normalizar_clientes (ClientesSeparados linhas)) produtos lojas in
  let grupos :=
    groupby_sum String.eqb String.leb (List.map (par f_nome_completo) df_total) in
  contem "nan" (nome_completo c) /\
  (exists f, In f df_total /\ venda_de f = v /\
             f_nome_completo f = Some (nome_completo c)) /\
  In (nome_completo c) (ft_cliente (filtros df_total)) /\
  opcoes_de "filtro_cliente" (layout_painel df_total)
    = [ordenar_textos (ft_cliente (filtros df_total))] /\
  In (nome_completo c) (ordenar_textos (ft_cliente (filtros df_total))) /\
  In (nome_completo c) (List.map fst grupos) /\
  ((List.length grupos <= 10)%nat ->
   In (nome_completo c) (List.map fst (top_clientes df_total))).
Proof.
  intros Hc Hnull Hv Hk df_total grupos.
  assert (Hf : exists f, In f df_total /\ venda_de f = v /\
                         f_nome_completo f = Some (nome_completo c)).
  { assert (H1 : In (v, Some (unificar_cliente c))
                   (merge_left v_id_cliente c_id vendas
                      (normalizar_clientes (ClientesSeparados linhas)))).
    { apply merge_left_In. split; [exact Hv|]. split; [|exact Hk].
      simpl. apply in_map. exact Hc. }
    destruct (merge_left_retains (fun j => v_id_produto (fst j)) p_id _
                produtos _ H1) as [p Hp].
    destruct (merge_left_retains (fun j => v_id_loja (fst (fst j))) l_id _
                lojas _ Hp) as [l Hl].
    exists (linha_total (colunas_inteiras vendas produtos)
              (v, Some (unificar_cliente c), p, l)).
    split; [|split].
    - unfold df_total, juntar. apply in_map. exact Hl.
    - apply venda_de_linha_total.
    - reflexivity. }
  assert (Hcol : In (Some (nome_completo c)) (List.map f_nome_completo df_total)).
  { destruct Hf as (f & Hin & _ & Hn). rewrite <- Hn. apply in_map. exact Hin. }
  assert (Hft : In (nome_completo c) (ft_cliente (filtros df_total)))
    by (simpl; apply distintos_In; exact Hcol).
  assert (Hg : In (nome_completo c) (List.map fst grupos)).
  { unfold grupos. rewrite groupby_sum_chaves.
    apply (chaves_In String.eqb String.leb String_eqb_eq').
    rewrite map_map. exact Hcol. }
  split; [apply contem_nan; exact Hnull|].
  split; [exact Hf|]. split; [exact Hft|]. split; [reflexivity|].
  split; [apply ordenar_textos_In; exact Hft|]. split; [exact Hg|].
  intros Hlen. unfold top_clientes, nlargest. fold grupos.
  rewrite firstn_all2.
  - eapply Permutation_in; [|exact Hg].
    apply Permutation_map, ordenar_desc_perm.
  - rewrite <- (Permutation_length (ordenar_desc_perm grupos)). exact Hlen.
Qed.

(** ** The callback on the store *)

Lemma bind_ok {A B} (m : M A) (k : A -> M B) (σ σ' : gmap nat Frame) (a : A) :
  m σ = Ok (a, σ') -> bind m k σ = k a σ'.
Proof. unfold bind. intros ->. reflexivity. Qed.

Lemma ler_ok (σ : gmap nat Frame) (l : nat) (fr : Frame) :
  σ !! l = Some fr -> ler l σ = Ok (fr, σ).
Proof. unfold ler. intros ->. reflexivity. Qed.

Lemma novo_trabalho (σ0 σ : gmap nat Frame) (rows : list FactRow)
    (mes : option (list string)) :
  σ0 ⊆ σ ->
  exists l σ', novo (mkFrame rows mes) σ = Ok (l, σ') /\ trabalho σ0 σ' l rows.
Proof.
  intros Hsub. exists (fresh (dom σ)), (<[fresh (dom σ) := mkFrame rows mes]> σ).
  split; [reflexivity|].
  assert (Hfresh : σ !! fresh (dom σ) = None)
    by (apply not_elem_of_dom, is_fresh).
  assert (H0 : σ0 !! fresh (dom σ) = None)
    by (eapply lookup_weaken_None; eauto).
  split; [apply insert_subseteq_r; assumption|]. split; [exact H0|].
  exists mes. apply lookup_insert_eq.
Qed.

Lemma df_copy_spec (σ : gmap nat Frame) (base : nat) (fr : Frame) :
  σ !! base = Some fr ->
  exists l σ', df_copy base σ = Ok (l, σ') /\ trabalho σ σ' l (fr_rows fr).
Proof.
  intros Hb. unfold df_copy. rewrite (bind_ok _ _ _ _ _ (ler_ok _ _ _ Hb)).
  destruct fr as [rows mes]. apply novo_trabalho. reflexivity.
Qed.

Lemma df_mask_spec (σ0 σ : gmap nat Frame) (l : nat) (rows : list FactRow)
    (p : FactRow -> bool) :
  trabalho σ0 σ l rows ->
  exists l' σ', df_mask l p σ = Ok (l', σ') /\
                trabalho σ0 σ' l' (filtrar_mascara (List.map p rows) rows).
Proof.
  intros (Hsub & _ & mes & Hl). unfold df_mask.
  rewrite (bind_ok _ _ _ _ _ (ler_ok _ _ _ Hl)). simpl.
  apply novo_trabalho. exact Hsub.
Qed.

Lemma df_filtro_escalar_spec (σ0 σ : gmap nat Frame) (l : nat)
    (rows : list FactRow) (valor : option string)
    (col : FactRow -> option string) :
  trabalho σ0 σ l rows ->
  exists l' σ', df_filtro_escalar valor col l σ = Ok (l', σ') /\
                trabalho σ0 σ' l' (filtro_escalar valor col rows).
Proof.
  intros Ht. unfold df_filtro_escalar, filtro_escalar.
  destruct valor as [v|]; [destruct (truthy_str (Some v))|].
  - apply df_mask_spec. exact Ht.
  - exists l, σ. split; [reflexivity|exact Ht].
  - exists l, σ. split; [reflexivity|exact Ht].
Qed.

Lemma df_filtro_lista_spec (σ0 σ : gmap nat Frame) (l : nat)
    (rows : list FactRow) (valores : option (list string))
    (col : FactRow -> option string) :
  trabalho σ0 σ l rows ->
  exists l' σ', df_filtro_lista valores col l σ = Ok (l', σ') /\
                trabalho σ0 σ' l' (filtro_lista valores col rows).
Proof.
  intros Ht. unfold df_filtro_lista, filtro_lista.
  destruct valores as [vs|]; [destruct (truthy_lista (Some vs))|].
  - apply df_mask_spec. exact Ht.
  - exists l, σ. split; [reflexivity|exact Ht].
  - exists l, σ. split; [reflexivity|exact Ht].
Qed.

Lemma com_data_id (r : FactRow) : com_data r (f_data r) = r.
Proof. destruct r; reflexivity. Qed.

Lemma to_datetime_datas (rows : list FactRow) :
  to_datetime ErrCoerce (List.map (fun r => celula (f_data r)) rows)
  = Ok (List.map f_data rows).
Proof.
  rewrite to_datetime_coerce, map_map. f_equal. apply map_ext.
  intros r. destruct (f_data r); reflexivity.
Qed.

Lemma gravar_trabalho (σ0 σ : gmap nat Frame) (l : nat)
    (rows : list FactRow) (mes : option (list string)) :
  trabalho σ0 σ l rows ->
  trabalho σ0 (<[l := mkFrame rows mes]> σ) l rows /\
  <[l := mkFrame rows mes]> σ !! l = Some (mkFrame rows mes).
Proof.
  intros (Hsub & H0 & _). split; [|apply lookup_insert_eq].
  split; [apply insert_subseteq_r; assumption|]. split; [exact H0|].
  exists mes. apply lookup_insert_eq.
Qed.

Lemma df_set_data_spec (σ0 σ : gmap nat Frame) (l : nat) (rows : list FactRow) :
  trabalho σ0 σ l rows ->
  exists σ', df_set_data l (List.map f_data rows) σ = Ok (tt, σ') /\
             trabalho σ0 σ' l rows.
Proof.
  intros Ht. destruct Ht as (Hsub & H0 & mes & Hl). unfold df_set_data.
  rewrite (bind_ok _ _ _ _ _ (ler_ok _ _ _ Hl)). simpl.
  rewrite (atribuir_map com_data f_data rows).
  rewrite (map_ext _ id) by (intros r; apply com_data_id).
  rewrite map_id. unfold bind, lift, gravar.
  eexists. split; [reflexivity|].
  apply gravar_trabalho. split; [exact Hsub|]. split; [exact H0|]. eauto.
Qed.

Lemma df_set_mes_spec (σ0 σ : gmap nat Frame) (l : nat) (rows : list FactRow) :
  trabalho σ0 σ l rows ->
  exists σ', df_set_mes l (coluna_mes rows) σ = Ok (tt, σ') /\
             trabalho σ0 σ' l rows /\
             σ' !! l = Some (mkFrame rows (Some (coluna_mes rows))).
Proof.
  intros Ht. pose proof Ht as (Hsub & H0 & mes & Hl). unfold df_set_mes.
  rewrite (bind_ok _ _ _ _ _ (ler_ok _ _ _ Hl)). simpl.
  unfold coluna_mes at 1. rewrite length_map, Nat.eqb_refl.
  unfold gravar. eexists. split; [reflexivity|].
  apply gravar_trabalho. exact Ht.
Qed.

Lemma atualizar_graficos_run (σ : gmap nat Frame) (base : nat) (fr : Frame)
    (sel : Selecao) :
  σ !! base = Some fr ->
  exists σ', atualizar_graficos base sel σ = Ok (figuras (fr_rows fr) sel, σ') /\
             σ ⊆ σ'.
Proof.
  intros Hb. unfold atualizar_graficos.
  destruct (df_copy_spec σ base fr Hb) as (l0 & σ0 & E0 & T0).
  rewrite (bind_ok _ _ _ _ _ E0).
  destruct (df_filtro_escalar_spec _ _ _ _ (s_tipo sel) f_tipo T0)
    as (l1 & σ1 & E1 & T1).
  rewrite (bind_ok _ _ _ _ _ E1).
  destruct (df_filtro_escalar_spec _ _ _ _ (s_marca sel) f_marca T1)
    as (l2 & σ2 & E2 & T2).
  rewrite (bind_ok _ _ _ _ _ E2).
  destruct (df_filtro_lista_spec _ _ _ _ (s_produtos sel) f_produto T2)
    as (l3 & σ3 & E3 & T3).
  rewrite (bind_ok _ _ _ _ _ E3).
  destruct (df_filtro_lista_spec _ _ _ _ (s_lojas sel) f_nome_loja T3)
    as (l4 & σ4 & E4 & T4).
  rewrite (bind_ok _ _ _ _ _ E4).
  destruct (df_filtro_lista_spec _ _ _ _ (s_clientes sel) f_nome_completo T4)
    as (l5 & σ5 & E5 & T5).
  rewrite (bind_ok _ _ _ _ _ E5).
  fold (query_engine (fr_rows fr) sel) in T5.
  set (df := query_engine (fr_rows fr) sel) in *.
  pose proof T5 as (_ & _ & mes5 & Hl5).
  rewrite (bind_ok _ _ _ _ _ (ler_ok _ _ _ Hl5)). simpl fr_rows.
  rewrite to_datetime_datas. unfold lift at 1. unfold bind at 1.
  destruct (df_set_data_spec _ _ _ _ T5) as (σ6 & E6 & T6).
  rewrite (bind_ok _ _ _ _ _ E6).
  pose proof T6 as (_ & _ & mes6 & Hl6).
  rewrite (bind_ok _ _ _ _ _ (ler_ok _ _ _ Hl6)). simpl fr_rows.
  destruct (df_set_mes_spec _ _ _ _ T6) as (σ7 & E7 & T7 & Hl7).
  rewrite (bind_ok _ _ _ _ _ E7).
  unfold df_get_mes.
  rewrite (bind_ok _ _ _ _ _ (bind_ok _ _ _ _ _ (ler_ok _ _ _ Hl7))).
  simpl. unfold ret at 1.
  rewrite (bind_ok _ _ _ _ _ (ler_ok _ _ _ Hl7)). simpl.
  exists σ7. split; [reflexivity|]. apply T7.
Qed.

(** C9. A pass of [atualizar_graficos] runs to the end without raising,
    returns figures that depend only on the rows of the base fact table
    and on the selection, and leaves every object that was in the store
    before the call as it was, the base fact table among them; so a
    further call, with any selection, sees the same base table and returns
    what it would have returned first. *)
Theorem atualizar_graficos_frame (σ : gmap nat Frame) (base : nat) (fr : Frame)
    (sel : Selecao) :
  σ !! base = Some fr ->
  exists σ',
    atualizar_graficos base sel σ = Ok (figuras (fr_rows fr) sel, σ') /\
    σ' !! base = Some fr /\
    (forall l o, σ !! l = Some o -> σ' !! l = Some o) /\
    (forall sel2, exists σ'',
       atualizar_graficos base sel2 σ' = Ok (figuras (fr_rows fr) sel2, σ'') /\
       σ'' !! base = Some fr).
Proof.
  intros Hb.
  destruct (atualizar_graficos_run σ base fr sel Hb) as (σ' & E & Hsub).
  assert (Hb' : σ' !! base = Some fr) by (eapply lookup_weaken; eauto).
  exists σ'. split; [exact E|]. split; [exact Hb'|]. split.
  - intros l o Hl. eapply lookup_weaken; eauto.
  - intros sel2.
    destruct (atualizar_graficos_run σ' base fr sel2 Hb') as (σ'' & E2 & Hsub2).
    exists σ''. split; [exact E2|]. eapply lookup_weaken; eauto.
Qed.

(** ** Dates *)

Lemma to_datetime_cell_coerce (primeiro : option Cell) (c : Cell) :
  to_datetime_cell primeiro ErrCoerce c = Ok (coerce_cell primeiro c).
Proof.
  destruct c as [d|s|]; simpl; try reflexivity.
  destruct (parse_dayfirst primeiro s); reflexivity.
Qed.

Lemma to_datetime_cell_unparsable (primeiro : option Cell) (s : string) :
  parse_dayfirst primeiro s = None ->
  to_datetime_cell primeiro ErrCoerce (CellText s) = Ok None /\
  to_datetime_cell primeiro ErrRaise (CellText s)
  = Erro "ValueError: unable to parse date".
Proof. intros H. simpl. rewrite H. split; reflexivity. Qed.

Lemma combine_map_rows {A B C} (g : A -> B) (h : A -> C) (l : list A) :
  List.combine (List.map g l) (List.map h l) = List.map (fun a => (g a, h a)) l.
Proof.
  induction l as [|a l IH]; simpl; [reflexivity|].
  rewrite IH. reflexivity.
Qed.

Lemma vendas_mes_pares (df : list FactRow) :
  vendas_mes df
  = groupby_sum String.eqb String.leb
      (List.map (fun r => (Some (rotulo_mes (f_data r)), f_valor r)) df).
Proof.
  unfold vendas_mes, vendas_mes_de, coluna_mes.
  rewrite map_map, combine_map_rows. reflexivity.
Qed.

(** Every row of the frame falls in a month group, dated or not. *)
Lemma vendas_mes_total (df : list FactRow) :
  total (vendas_mes df) = soma (List.map f_valor df).
Proof.
  rewrite vendas_mes_pares.
  rewrite (groupby_sum_total String.eqb String.leb String_eqb_eq').
  rewrite filter_map_comm, map_map. simpl.
  f_equal. f_equal. induction df as [|r df IH]; simpl; [reflexivity|].
  rewrite IH. reflexivity.
Qed.

Lemma vendas_mes_NaT (df : list FactRow) (r : FactRow) :
  In r df -> f_data r = None ->
  In "NaT"%string (List.map fst (vendas_mes df)).
Proof.
  intros Hr Hd. rewrite vendas_mes_pares, groupby_sum_chaves.
  apply (chaves_In String.eqb String.leb String_eqb_eq').
  rewrite map_map. simpl. apply in_map_iff. exists r.
  split; [rewrite Hd; reflexivity|exact Hr].
Qed.

(** ** The page that is served *)

(** C1. The layout assigned at lines 76-125 has the five dropdowns (type
    and brand single-select; product, store and customer multi-select)
    and the six graphs, to which [atualizar_graficos] sends a bar, a
    horizontal bar, a line, a bar, a pie and an area chart. The module
    then rebinds [app] and [server] (lines 237-242): the layout behind
    [server] once the module has been imported, and the layout of the
    final [app] object in either mode, is the [Hello Dash] page, which
    has no dropdown and no graph. *)
Theorem served_layout_is_hello (df_total : list FactRow) (sel : Selecao) :
  dropdowns (layout_painel df_total)
  = [("filtro_tipo"%string, false); ("filtro_marca"%string, false);
     ("filtro_produto"%string, true); ("filtro_loja"%string, true);
     ("filtro_cliente"%string, true)] /\
  graphs (layout_painel df_total)
  = ["grafico_ano"; "grafico_cliente"; "grafico_produto"; "grafico_loja";
     "grafico_pizza_tipo"; "grafico_area_tempo"]%string /\
  graficos_por_id (figuras df_total sel)
  = [("grafico_ano"%string, Bar); ("grafico_cliente"%string, BarH);
     ("grafico_produto"%string, Line); ("grafico_loja"%string, Bar);
     ("grafico_pizza_tipo"%string, Pie); ("grafico_area_tempo"%string, Area)] /\
  layout_servido false df_total = Some layout_hello /\
  layout_final false df_total = Some layout_hello /\
  layout_final true df_total = Some layout_hello /\
  dropdowns layout_hello = [] /\
  graphs layout_hello = [].
Proof. repeat split. Qed.

(** ** Left joins on reference tables with unique keys *)

Lemma chave_eqb_eq (a b : option Z) : chave_eqb a b = true <-> a = b.
Proof.
  destruct a as [x|], b as [y|]; simpl.
  - rewrite Z.eqb_eq. split; congruence.
  - split; discriminate.
  - split; discriminate.
  - tauto.
Qed.

Lemma filter_chave_unica {R} (kr : R -> option Z) (dir : list R) (k : option Z) :
  chaves_unicas kr dir ->
  (List.length (List.filter (fun r => chave_eqb k (kr r)) dir) <= 1)%nat.
Proof.
  unfold chaves_unicas. induction dir as [|a dir IH]; simpl; intros Hnd; [lia|].
  inversion Hnd as [|? ? Hnotin Hnd']; subst.
  destruct (chave_eqb k (kr a)) eqn:E; [|apply IH; exact Hnd'].
  apply chave_eqb_eq in E. subst k. simpl.
  destruct (List.filter (fun r => chave_eqb (kr a) (kr r)) dir) as [|r rs] eqn:F;
    [simpl; lia|].
  exfalso. apply Hnotin.
  assert (Hr : In r (List.filter (fun r => chave_eqb (kr a) (kr r)) dir))
    by (rewrite F; left; reflexivity).
  apply filter_In in Hr. destruct Hr as [Hr Hk].
  apply chave_eqb_eq in Hk. rewrite Hk. apply in_map. exact Hr.
Qed.

Lemma merge_left_fst {L R} (kl : L -> option Z) (kr : R -> option Z)
    (esq : list L) (dir : list R) :
  chaves_unicas kr dir ->
  List.map fst (merge_left kl kr esq dir) = esq.
Proof.
  intros Hu. unfold merge_left.
  induction esq as [|l esq IH]; [reflexivity|].
  cbn [flat_map]. rewrite map_app, IH. clear IH.
  pose proof (filter_chave_unica kr dir (kl l) Hu) as Hlen.
  destruct (List.filter (fun r => chave_eqb (kl l) (kr r)) dir) as [|r0 [|r1 rs]];
    simpl in *; [reflexivity|reflexivity|lia].
Qed.

Lemma merge_left_length {L R} (kl : L -> option Z) (kr : R -> option Z)
    (esq : list L) (dir : list R) :
  (List.length esq <= List.length (merge_left kl kr esq dir))%nat.
Proof.
  unfold merge_left. induction esq as [|l esq IH]; [simpl; lia|].
  cbn [flat_map]. rewrite length_app.
  set (resto := flat_map _ esq) in *.
  destruct (List.filter (fun r => chave_eqb (kl l) (kr r)) dir); simpl; lia.
Qed.

(** X1. When the customer, product and store tables have at most one row
    per key, the fact table has exactly one row per sales row, in the order
    of the sales. *)
Theorem juntar_one_row_per_sale (vendas : list Venda) (clientes : list Cliente)
    (produtos : list Produto) (lojas : list Loja) :
  chaves_unicas c_id clientes ->
  chaves_unicas p_id produtos ->
  chaves_unicas l_id lojas ->
  List.map venda_de (juntar vendas clientes produtos lojas) = vendas.
Proof.
  intros Hc Hp Hl. unfold juntar. cbv zeta.
  set (m3 := merge_left (fun j => v_id_loja (fst (fst j))) l_id _ lojas).
  transitivity (List.map fst (List.map fst (List.map fst m3))).
  - rewrite !map_map. apply map_ext.
    intros [[[v c] p] l]. apply venda_de_linha_total.
  - unfold m3.
    rewrite (merge_left_fst _ l_id _ lojas Hl).
    rewrite (merge_left_fst _ p_id _ produtos Hp).
    apply (merge_left_fst _ c_id _ clientes Hc).
Qed.

(** X2. Whatever the reference tables hold, the fact table has at least as
    many rows as there are sales rows. *)
Theorem juntar_keeps_row_count (vendas : list Venda) (clientes : list Cliente)
    (produtos : list Produto) (lojas : list Loja) :
  (List.length vendas
   <= List.length (juntar vendas clientes produtos lojas))%nat.
Proof.
  unfold juntar. rewrite length_map.
  etransitivity; [apply (merge_left_length v_id_cliente c_id vendas clientes)|].
  etransitivity; [apply (merge_left_length (fun j => v_id_produto (fst j)) p_id _ produtos)|].
  apply merge_left_length.
Qed.

(** X3. When the customer workbook has separate first and last names, the
    full name of a fact row is null exactly when no customer row has the
    row's customer key. *)
Theorem nome_completo_null_iff_unmatched (vendas : list Venda)
    (linhas : list ClienteSeparado) (produtos : list Produto)
    (lojas : list Loja) (f : FactRow) :
  In f (juntar vendas (normalizar_clientes (ClientesSeparados linhas))
          produtos lojas) ->
  (f_nome_completo f = None <->
   forall c, In c linhas -> chave_eqb (f_id_cliente f) (cs_id c) = false).
Proof.
  intros Hf. apply juntar_In in Hf.
  destruct Hf as (v & c & p & l & -> & Hv & Hc & _ & _). simpl in *.
  destruct c as [c|]; simpl.
  - destruct Hc as [Hin Hk]. apply in_map_iff in Hin.
    destruct Hin as [c0 [<- Hin0]]. simpl in *. split; [discriminate|].
    intros H. rewrite (H c0 Hin0) in Hk. discriminate.
  - split; [|reflexivity]. intros _ c0 Hin0.
    apply (Hc (unificar_cliente c0)). apply in_map. exact Hin0.
Qed.

(** ** Filter Index, options and the Query Engine *)

Lemma indice_distintos (col : list (option string)) :
  indice_de col (ordenar_textos (distintos col)).
Proof.
  split; [apply sorted_Sorted, String.leb_total|]. split.
  - apply ordenar_textos_NoDup, unique_NoDup, String_eqb_eq'.
  - intros x. rewrite ordenar_textos_In. apply distintos_In.
Qed.

(** X4. The layout gives the type, product, store and customer dropdowns
    one options list each, which holds the non-null values of the
    dropdown's column of the fact table, ascending and without repetition;
    the brand dropdown gets no options from the layout. *)
Theorem dropdown_options_index (df_total : list FactRow) :
  exists tipos produtos lojas clientes,
    opcoes_de "filtro_tipo" (layout_painel df_total) = [tipos] /\
    indice_de (List.map f_tipo df_total) tipos /\
    opcoes_de "filtro_produto" (layout_painel df_total) = [produtos] /\
    indice_de (List.map f_produto df_total) produtos /\
    opcoes_de "filtro_loja" (layout_painel df_total) = [lojas] /\
    indice_de (List.map f_nome_loja df_total) lojas /\
    opcoes_de "filtro_cliente" (layout_painel df_total) = [clientes] /\
    indice_de (List.map f_nome_completo df_total) clientes /\
    opcoes_de "filtro_marca" (layout_painel df_total) = [].
Proof.
  exists (ordenar_textos (ft_tipo (filtros df_total))),
         (ordenar_textos (ft_produto (filtros df_total))),
         (ordenar_textos (ft_loja (filtros df_total))),
         (ordenar_textos (ft_cliente (filtros df_total))).
  repeat (split; [first [reflexivity | apply indice_distintos]|]).
  reflexivity.
Qed.

Lemma filter_tudo {A} (l : list A) : List.filter (fun _ => true) l = l.
Proof. induction l as [|a l IH]; simpl; [reflexivity|]. rewrite IH. reflexivity. Qed.

Lemma filter_duplo {A} (p q : A -> bool) (l : list A) :
  List.filter q (List.filter p l) = List.filter (fun x => p x && q x) l.
Proof.
  induction l as [|a l IH]; simpl; [reflexivity|].
  destruct (p a); simpl; [destruct (q a)|]; rewrite IH; reflexivity.
Qed.

Lemma filtro_escalar_filter (valor : option string)
    (col : FactRow -> option string) (df : list FactRow) :
  filtro_escalar valor col df
  = List.filter (fun r => passa_escalar valor (col r)) df.
Proof.
  unfold filtro_escalar, passa_escalar. destruct valor as [v|].
  - destruct (truthy_str (Some v)).
    + apply filtrar_mascara_map.
    + symmetry. apply filter_tudo.
  - symmetry. apply filter_tudo.
Qed.

Lemma filtro_lista_filter (valores : option (list string))
    (col : FactRow -> option string) (df : list FactRow) :
  filtro_lista valores col df
  = List.filter (fun r => passa_lista valores (col r)) df.
Proof.
  unfold filtro_lista, passa_lista. destruct valores as [vs|].
  - destruct (truthy_lista (Some vs)).
    + apply filtrar_mascara_map.
    + symmetry. apply filter_tudo.
  - symmetry. apply filter_tudo.
Qed.

Lemma query_engine_filter (df_total : list FactRow) (sel : Selecao) :
  query_engine df_total sel = List.filter (passa sel) df_total.
Proof.
  unfold query_engine. cbv zeta.
  rewrite !filtro_lista_filter, !filtro_escalar_filter, !filter_duplo.
  apply filter_ext. intros r. unfold passa. rewrite !andb_assoc. reflexivity.
Qed.

(** X5. The Query Engine keeps the rows that pass the five masks, in their
    order and with their repetitions; applying it again with the same
    selection changes nothing, and on a table made of two parts it gives
    the result on the first part followed by the result on the second. *)
Theorem query_engine_order_idempotent (df1 df2 : list FactRow) (sel : Selecao) :
  query_engine df1 sel = List.filter (passa sel) df1 /\
  query_engine (query_engine df1 sel) sel = query_engine df1 sel /\
  query_engine (df1 ++ df2) sel = query_engine df1 sel ++ query_engine df2 sel.
Proof.
  rewrite !query_engine_filter. split; [reflexivity|]. split.
  - rewrite filter_duplo. apply filter_ext. intros r. apply andb_diag.
  - apply filter_app.
Qed.

Lemma passa_escalar_mesmo (v : string) : passa_escalar (Some v) (Some v) = true.
Proof.
  unfold passa_escalar. destruct (truthy_str (Some v)); [|reflexivity].
  simpl. apply String.eqb_refl.
Qed.

Lemma passa_lista_um (v : string) : passa_lista (Some [v]) (Some v) = true.
Proof. simpl. rewrite String.eqb_refl. reflexivity. Qed.

Lemma opcao_tem_linha (col : FactRow -> option string) (df : list FactRow)
    (x : string) :
  In x (ordenar_textos (distintos (List.map col df))) ->
  exists r, In r df /\ col r = Some x.
Proof.
  rewrite ordenar_textos_In, distintos_In, in_map_iff.
  intros [r [E Hr]]. eauto.
Qed.

(** X6. A type that the type dropdown offers, selected alone, gives a
    filtered subset that has a row of that type. *)
Theorem offered_type_selects_rows (df_total : list FactRow) (t : string) :
  In t (ordenar_textos (ft_tipo (filtros df_total))) ->
  exists r, In r (query_engine df_total (mkSelecao (Some t) None None None None)) /\
            f_tipo r = Some t.
Proof.
  intros Ht. destruct (opcao_tem_linha f_tipo df_total t Ht) as (r & Hr & E).
  exists r. split; [|exact E].
  rewrite query_engine_filter. apply filter_In. split; [exact Hr|].
  unfold passa. cbn [s_tipo s_marca s_produtos s_lojas s_clientes].
  rewrite E, passa_escalar_mesmo. reflexivity.
Qed.

(** X7. A product, store or customer name that its dropdown offers,
    selected alone, gives a filtered subset that has a row with that name. *)
Theorem offered_name_selects_rows (df_total : list FactRow) (x : string) :
  (In x (ordenar_textos (ft_produto (filtros df_total))) ->
   exists r, In r (query_engine df_total (mkSelecao None None (Some [x]) None None)) /\
             f_produto r = Some x) /\
  (In x (ordenar_textos (ft_loja (filtros df_total))) ->
   exists r, In r (query_engine df_total (mkSelecao None None None (Some [x]) None)) /\
             f_nome_loja r = Some x) /\
  (In x (ordenar_textos (ft_cliente (filtros df_total))) ->
   exists r, In r (query_engine df_total (mkSelecao None None None None (Some [x]))) /\
             f_nome_completo r = Some x).
Proof.
  split; [|split]; intros Hx.
  - destruct (opcao_tem_linha f_produto df_total x Hx) as (r & Hr & E).
    exists r. split; [|exact E].
    rewrite query_engine_filter. apply filter_In. split; [exact Hr|].
    unfold passa. cbn [s_tipo s_marca s_produtos s_lojas s_clientes].
    rewrite E, passa_lista_um. reflexivity.
  - destruct (opcao_tem_linha f_nome_loja df_total x Hx) as (r & Hr & E).
    exists r. split; [|exact E].
    rewrite query_engine_filter. apply filter_In. split; [exact Hr|].
    unfold passa. cbn [s_tipo s_marca s_produtos s_lojas s_clientes].
    rewrite E, passa_lista_um. reflexivity.
  - destruct (opcao_tem_linha f_nome_completo df_total x Hx) as (r & Hr & E).
    exists r. split; [|exact E].
    rewrite query_engine_filter. apply filter_In. split; [exact Hr|].
    unfold passa. cbn [s_tipo s_marca s_produtos s_lojas s_clientes].
    rewrite E, passa_lista_um. reflexivity.
Qed.

(** X8. A brand that the brand cascade offers for the selected type, selected
    together with that type, gives a filtered subset that has a row of that
    type and brand. *)
Theorem offered_brand_selects_rows (df_total : list FactRow)
    (tipo : option string) (b : string) :
  In b (atualizar_marcas df_total tipo) ->
  exists r, In r (query_engine df_total (mkSelecao tipo (Some b) None None None)) /\
            f_tipo r = tipo /\ f_marca r = Some b.
Proof.
  intros Hb. destruct tipo as [t|]; [|destruct Hb].
  destruct (String.eqb t "") eqn:Et.
  - unfold atualizar_marcas in Hb. simpl in Hb. rewrite Et in Hb. destruct Hb.
  - apply String.eqb_neq in Et.
    rewrite (atualizar_marcas_selected df_total t Et) in Hb.
    apply ordenar_textos_In, distintos_In, in_map_iff in Hb.
    destruct Hb as (r & Eb & Hr). apply filter_In in Hr.
    destruct Hr as [Hr Ht]. apply col_eq_true in Ht.
    exists r. split; [|split; assumption].
    rewrite query_engine_filter. apply filter_In. split; [exact Hr|].
    unfold passa. cbn [s_tipo s_marca s_produtos s_lojas s_clientes].
    rewrite Ht, Eb, !passa_escalar_mesmo. reflexivity.
Qed.

(** ** Series of the aggregators *)

Lemma Sorted_leb_lt (l : list Z) :
  Sorted (fun a b => (a <=? b) = true) l -> NoDup l -> StronglySorted Z.lt l.
Proof.
  intros Hs Hnd.
  assert (Hss : StronglySorted (fun a b => (a <=? b) = true) l).
  { apply Sorted_StronglySorted; [|exact Hs].
    intros x y z Hxy Hyz. apply Z.leb_le in Hxy, Hyz. apply Z.leb_le. lia. }
  clear Hs. induction Hss as [|a t Ht IH Ha]; [constructor|].
  inversion Hnd as [|? ? Hnotin Hnd']; subst.
  constructor; [apply IH; exact Hnd'|].
  apply Forall_forall. intros b Hb.
  pose proof (proj1 (Forall_forall _ _) Ha b Hb) as Hab.
  apply Z.leb_le in Hab.
  assert (a <> b) by (intros ->; contradiction). lia.
Qed.

(** X9. The sales-by-year series has one entry per distinct non-null year
    of the frame, the years strictly ascending, and the value of an entry
    is the sum of line_total over the frame's rows of that year. *)
Theorem vendas_por_ano_series (df : list FactRow) :
  StronglySorted Z.lt (List.map fst (vendas_por_ano df)) /\
  forall y v, In (y, v) (vendas_por_ano df) <->
    In (Some y) (List.map f_ano df) /\
    v = soma (List.map f_valor
                (List.filter (fun r => chave_igual Z.eqb y (f_ano r)) df)).
Proof.
  unfold vendas_por_ano. split.
  - rewrite groupby_sum_chaves. apply Sorted_leb_lt.
    + apply sorted_Sorted, Zleb_total.
    + apply chaves_NoDup, Z.eqb_eq.
  - intros y v. rewrite (groupby_sum_In Z.eqb Z.leb Z.eqb_eq).
    rewrite map_map. unfold valores_do_grupo.
    rewrite filter_map_comm, map_map. reflexivity.
Qed.

Lemma StronglySorted_app_rel {A} (R : A -> A -> Prop) (l1 l2 : list A) :
  StronglySorted R (l1 ++ l2) ->
  forall a b, In a l1 -> In b l2 -> R a b.
Proof.
  induction l1 as [|x l1 IH]; intros Hs a b Ha Hb; [destruct Ha|].
  inversion Hs as [|? ? Ht Hx]; subst. destruct Ha as [->|Ha].
  - apply (proj1 (Forall_forall _ _) Hx). apply in_or_app. right. exact Hb.
  - apply IH; assumption.
Qed.

Lemma nlargest_maiores {K} (n : nat) (serie : list (K * Z)) :
  exists resto,
    Permutation serie (nlargest n serie ++ resto) /\
    forall a b, In a (nlargest n serie) -> In b resto -> snd b <= snd a.
Proof.
  exists (skipn n (ordenar_desc serie)). unfold nlargest. split.
  - rewrite firstn_skipn. apply ordenar_desc_perm.
  - apply (StronglySorted_app_rel (fun a b => snd b <= snd a)).
    rewrite firstn_skipn. apply ordenar_desc_decrescente.
Qed.

(** X10. The top customers and the top products are the largest groups:
    the groups of the frame are the entries of the series together with
    left-out groups, and no left-out group has a larger sum than an entry. *)
Theorem top10_are_largest (df : list FactRow) :
  (exists resto,
     Permutation
       (groupby_sum String.eqb String.leb (List.map (par f_nome_completo) df))
       (top_clientes df ++ resto) /\
     forall a b, In a (top_clientes df) -> In b resto -> snd b <= snd a) /\
  (exists resto,
     Permutation
       (groupby_sum String.eqb String.leb (List.map (par f_produto) df))
       (top_produtos df ++ resto) /\
     forall a b, In a (top_produtos df) -> In b resto -> snd b <= snd a).
Proof. split; apply nlargest_maiores. Qed.


(** ** The callback at its edges *)

(** X13. Line 167 on a frame whose dates are already dates: the conversion
    does not raise, and the assignment leaves the store as it was. *)
Theorem reconversao_data_noop (σ : gmap nat Frame) (l : nat)
    (rows : list FactRow) (mes : option (list string)) :
  σ !! l = Some (mkFrame rows mes) ->
  bind (lift (to_datetime ErrCoerce
                (List.map (fun r => celula (f_data r)) rows)))
       (fun datas => df_set_data l datas) σ
  = Ok (tt, σ).
Proof.
  intros Hl. rewrite to_datetime_datas. unfold lift at 1. unfold bind at 1.
  unfold df_set_data. rewrite (bind_ok _ _ _ _ _ (ler_ok _ _ _ Hl)). simpl.
  rewrite (atribuir_map com_data f_data rows).
  rewrite (map_ext _ id) by (intros r; apply com_data_id).
  rewrite map_id. unfold bind, lift, gravar.
  rewrite (insert_id σ l _ Hl). reflexivity.
Qed.

(** ** Callbacks and objects of the module *)

(** X14. The ids that the two callbacks name are ids of the dashboard
    layout. [atualizar_graficos] writes the [figure] of its six graphs and
    reads the [value] of its five dropdowns, in the layout's order.
    [atualizar_marcas] reads the [value] of the type dropdown, the one
    whose options are the types of the Filter Index, and writes the
    [options] of the brand dropdown, the one the layout gives no options. *)
Theorem callbacks_wired (df_total : list FactRow) :
  List.map fst (cb_outputs cb_graficos) = graphs (layout_painel df_total) /\
  List.map snd (cb_outputs cb_graficos) = List.repeat "figure"%string 6 /\
  List.map fst (cb_inputs cb_graficos)
  = List.map fst (dropdowns (layout_painel df_total)) /\
  List.map snd (cb_inputs cb_graficos) = List.repeat "value"%string 5 /\
  (exists tipo, cb_inputs cb_marcas = [(tipo, "value"%string)] /\
     In tipo (List.map fst (dropdowns (layout_painel df_total))) /\
     opcoes_de tipo (layout_painel df_total)
     = [ordenar_textos (ft_tipo (filtros df_total))]) /\
  (exists marca, cb_outputs cb_marcas = [(marca, "options"%string)] /\
     In marca (List.map fst (dropdowns (layout_painel df_total))) /\
     opcoes_de marca (layout_painel df_total) = []).
Proof.
  split; [reflexivity|]. split; [reflexivity|].
  split; [reflexivity|]. split; [reflexivity|]. split.
  - exists "filtro_tipo"%string. split; [reflexivity|].
    split; [simpl; tauto|reflexivity].
  - exists "filtro_marca"%string. split; [reflexivity|].
    split; [simpl; tauto|reflexivity].
Qed.

(** X15. Run as a script, the module calls [run_server] first on the
    object that holds the dashboard layout and both callbacks, and only
    after that call returns on the second object, which holds the
    [Hello Dash] layout and no callback; imported, it calls [run_server]
    on neither and leaves the same two objects, with [server] naming the
    second. *)
Theorem module_objects (df_total : list FactRow) :
  exists m m',
    executar_modulo true df_total = Ok m /\
    executar_modulo false df_total = Ok m' /\
    objetos m
    = [ mkDashApp (Some (layout_painel df_total)) [cb_marcas; cb_graficos];
        mkDashApp (Some layout_hello) [] ] /\
    servidos m = [0; 1]%nat /\
    objetos m' = objetos m /\
    servidos m' = [] /\
    var_server m' = Some 1%nat.
Proof.
  exists (mkModulo
            [ mkDashApp (Some (layout_painel df_total)) [cb_marcas; cb_graficos];
              mkDashApp (Some layout_hello) [] ]
            (Some 1%nat) (Some 1%nat) [0; 1]%nat),
         (mkModulo
            [ mkDashApp (Some (layout_painel df_total)) [cb_marcas; cb_graficos];
              mkDashApp (Some layout_hello) [] ]
            (Some 1%nat) (Some 1%nat) []).
  split; [reflexivity|]. split; [reflexivity|]. repeat split.
Qed.

(** ** Order of the month labels *)

Lemma digito_compare_pequeno (x y : Z) :
  0 <= x < 10 -> 0 <= y < 10 ->
  Ascii.compare (digito x) (digito y) = (x ?= y).
Proof.
  intros Hx Hy.
  assert (Ex : x = 0 \/ x = 1 \/ x = 2 \/ x = 3 \/ x = 4 \/ x = 5 \/ x = 6 \/
               x = 7 \/ x = 8 \/ x = 9) by lia.
  assert (Ey : y = 0 \/ y = 1 \/ y = 2 \/ y = 3 \/ y = 4 \/ y = 5 \/ y = 6 \/
               y = 7 \/ y = 8 \/ y = 9) by lia.
  clear Hx Hy.
  destruct Ex as [->|[->|[->|[->|[->|[->|[->|[->|[->| ->]]]]]]]]];
    destruct Ey as [->|[->|[->|[->|[->|[->|[->|[->|[->| ->]]]]]]]]];
    reflexivity.
Qed.

Lemma digito_mod (k : Z) : digito k = digito (k mod 10).
Proof. unfold digito. rewrite Z.mod_mod by lia. reflexivity. Qed.

Lemma digito_compare (k1 k2 : Z) :
  Ascii.compare (digito k1) (digito k2) = (k1 mod 10 ?= k2 mod 10).
Proof.
  rewrite (digito_mod k1), (digito_mod k2).
  apply digito_compare_pequeno; apply Z.mod_pos_bound; lia.
Qed.

Lemma digito_antes_de_N (k : Z) : Ascii.compare (digito k) "N" = Lt.
Proof.
  rewrite (digito_mod k).
  assert (H : 0 <= k mod 10 < 10) by (apply Z.mod_pos_bound; lia).
  assert (E : k mod 10 = 0 \/ k mod 10 = 1 \/ k mod 10 = 2 \/ k mod 10 = 3 \/
              k mod 10 = 4 \/ k mod 10 = 5 \/ k mod 10 = 6 \/ k mod 10 = 7 \/
              k mod 10 = 8 \/ k mod 10 = 9) by lia.
  destruct E as [->|[->|[->|[->|[->|[->|[->|[->|[->| ->]]]]]]]]]; reflexivity.
Qed.

Lemma compare_2digitos (m1 m2 : Z) :
  0 <= m1 < 100 -> 0 <= m2 < 100 ->
  (m1 ?= m2)
  = match (m1 / 10) mod 10 ?= (m2 / 10) mod 10 with
    | Eq => m1 mod 10 ?= m2 mod 10
    | c => c
    end.
Proof.
  intros H1 H2.
  remember ((m1 / 10) mod 10) as a1 eqn:Ea1.
  remember ((m2 / 10) mod 10) as a2 eqn:Ea2.
  remember (m1 mod 10) as b1 eqn:Eb1.
  remember (m2 mod 10) as b2 eqn:Eb2.
  assert (F1 : m1 = 10 * a1 + b1 /\ 0 <= a1 < 10 /\ 0 <= b1 < 10)
    by (subst a1 b1; Z.div_mod_to_equations; lia).
  assert (F2 : m2 = 10 * a2 + b2 /\ 0 <= a2 < 10 /\ 0 <= b2 < 10)
    by (subst a2 b2; Z.div_mod_to_equations; lia).
  clear Ea1 Ea2 Eb1 Eb2.
  destruct (Z.compare_spec a1 a2); [destruct (Z.compare_spec b1 b2)| |];
    first [apply Z.compare_eq_iff | apply Z.compare_lt_iff | apply Z.compare_gt_iff];
    lia.
Qed.

Lemma compare_4digitos (y1 y2 : Z) :
  0 <= y1 < 10000 -> 0 <= y2 < 10000 ->
  (y1 ?= y2)
  = match (y1 / 1000) mod 10 ?= (y2 / 1000) mod 10 with
    | Eq =>
        match (y1 / 100) mod 10 ?= (y2 / 100) mod 10 with
        | Eq =>
            match (y1 / 10) mod 10 ?= (y2 / 10) mod 10 with
            | Eq => y1 mod 10 ?= y2 mod 10
            | c => c
            end
        | c => c
        end
    | c => c
    end.
Proof.
  intros H1 H2.
  remember ((y1 / 1000) mod 10) as a1 eqn:Ea1.
  remember ((y2 / 1000) mod 10) as a2 eqn:Ea2.
  remember ((y1 / 100) mod 10) as b1 eqn:Eb1.
  remember ((y2 / 100) mod 10) as b2 eqn:Eb2.
  remember ((y1 / 10) mod 10) as c1 eqn:Ec1.
  remember ((y2 / 10) mod 10) as c2 eqn:Ec2.
  remember (y1 mod 10) as d1 eqn:Ed1.
  remember (y2 mod 10) as d2 eqn:Ed2.
  assert (F1 : y1 = 1000 * a1 + 100 * b1 + 10 * c1 + d1 /\
               0 <= a1 < 10 /\ 0 <= b1 < 10 /\ 0 <= c1 < 10 /\ 0 <= d1 < 10)
    by (subst a1 b1 c1 d1; Z.div_mod_to_equations; lia).
  assert (F2 : y2 = 1000 * a2 + 100 * b2 + 10 * c2 + d2 /\
               0 <= a2 < 10 /\ 0 <= b2 < 10 /\ 0 <= c2 < 10 /\ 0 <= d2 < 10)
    by (subst a2 b2 c2 d2; Z.div_mod_to_equations; lia).
  clear Ea1 Ea2 Eb1 Eb2 Ec1 Ec2 Ed1 Ed2.
  destruct (Z.compare_spec a1 a2);
    [destruct (Z.compare_spec b1 b2);
       [destruct (Z.compare_spec c1 c2);
          [destruct (Z.compare_spec d1 d2)| |]| |]| |];
    first [apply Z.compare_eq_iff | apply Z.compare_lt_iff | apply Z.compare_gt_iff];
    lia.
Qed.

Lemma rotulo_mes_compare (d1 d2 : Date) :
  mes_valido d1 -> mes_valido d2 ->
  String.compare (rotulo_mes (Some d1)) (rotulo_mes (Some d2))
  = match d_year d1 ?= d_year d2 with
    | Eq => d_month d1 ?= d_month d2
    | c => c
    end.
Proof.
  intros [Hy1 Hm1] [Hy2 Hm2].
  destruct d1 as [y1 m1 dd1], d2 as [y2 m2 dd2].
  cbn [d_year d_month] in *.
  rewrite (compare_4digitos y1 y2) by lia.
  rewrite (compare_2digitos m1 m2) by lia.
  change (String.compare
            (String (digito (y1 / 1000)) (String (digito (y1 / 100))
               (String (digito (y1 / 10)) (String (digito y1)
                  (String "-" (String (digito (m1 / 10))
                     (String (digito m1) EmptyString)))))))
            (String (digito (y2 / 1000)) (String (digito (y2 / 100))
               (String (digito (y2 / 10)) (String (digito y2)
                  (String "-" (String (digito (m2 / 10))
                     (String (digito m2) EmptyString)))))))
          = match
              match (y1 / 1000) mod 10 ?= (y2 / 1000) mod 10 with
              | Eq =>
                  match (y1 / 100) mod 10 ?= (y2 / 100) mod 10 with
                  | Eq =>
                      match (y1 / 10) mod 10 ?= (y2 / 10) mod 10 with
                      | Eq => y1 mod 10 ?= y2 mod 10
                      | c => c
                      end
                  | c => c
                  end
              | c => c
              end
            with
            | Eq =>
                match (m1 / 10) mod 10 ?= (m2 / 10) mod 10 with
                | Eq => m1 mod 10 ?= m2 mod 10
                | c => c
                end
            | c => c
            end).
  cbn [String.compare]. rewrite !digito_compare.
  change (Ascii.compare "-" "-") with Eq.
  destruct ((y1 / 1000) mod 10 ?= (y2 / 1000) mod 10);
    destruct ((y1 / 100) mod 10 ?= (y2 / 100) mod 10);
    destruct ((y1 / 10) mod 10 ?= (y2 / 10) mod 10);
    destruct (y1 mod 10 ?= y2 mod 10);
    destruct ((m1 / 10) mod 10 ?= (m2 / 10) mod 10);
    destruct (m1 mod 10 ?= m2 mod 10); reflexivity.
Qed.

Lemma rotulo_mes_antes_de_NaT (d : Date) :
  String.leb (rotulo_mes (Some d)) (rotulo_mes None) = true /\
  String.leb (rotulo_mes None) (rotulo_mes (Some d)) = false.
Proof.
  destruct d as [y m dd].
  change (String.leb
            (String (digito (y / 1000)) (String (digito (y / 100))
               (String (digito (y / 10)) (String (digito y)
                  (String "-" (String (digito (m / 10))
                     (String (digito m) EmptyString)))))))
            (String "N" (String "a" (String "T" EmptyString))) = true /\
          String.leb
            (String "N" (String "a" (String "T" EmptyString)))
            (String (digito (y / 1000)) (String (digito (y / 100))
               (String (digito (y / 10)) (String (digito y)
                  (String "-" (String (digito (m / 10))
                     (String (digito m) EmptyString))))))) = false).
  unfold String.leb. cbn [String.compare].
  rewrite (Ascii.compare_antisym "N" (digito (y / 1000))).
  rewrite digito_antes_de_N. split; reflexivity.
Qed.

(** X16. The monthly series has its labels ascending. For dates with a
    four-digit year and a month from 1 to 12, a label comes no later than
    another exactly when its month is no later in time, so dated months are
    in chronological order; the label of a missing date comes after every
    dated month. *)
Theorem month_labels_chronological (df : list FactRow) (d1 d2 : Date) :
  mes_valido d1 -> mes_valido d2 ->
  crescente_texto (List.map fst (vendas_mes df)) /\
  (String.leb (rotulo_mes (Some d1)) (rotulo_mes (Some d2)) = true
   <-> mes_ate d1 d2) /\
  String.leb (rotulo_mes (Some d1)) (rotulo_mes None) = true /\
  String.leb (rotulo_mes None) (rotulo_mes (Some d1)) = false.
Proof.
  intros H1 H2. split; [|split].
  - rewrite vendas_mes_pares, groupby_sum_chaves.
    apply sorted_Sorted, String.leb_total.
  - unfold String.leb, mes_ate. rewrite (rotulo_mes_compare d1 d2 H1 H2).
    destruct (Z.compare_spec (d_year d1) (d_year d2));
      [destruct (Z.compare_spec (d_month d1) (d_month d2))| |];
      split; try discriminate; try reflexivity; lia.
  - apply rotulo_mes_antes_de_NaT.
Qed.

(** ** Selecting every offered name *)

Lemma filtro_lista_todas (col : FactRow -> option string) (df : list FactRow) :
  ordenar_textos (distintos (List.map col df)) <> [] ->
  filtro_lista (Some (ordenar_textos (distintos (List.map col df)))) col df
  = List.filter (fun r => tem_valor (col r)) df.
Proof.
  intros Hne. unfold filtro_lista.
  destruct (ordenar_textos (distintos (List.map col df))) as [|a ops] eqn:E;
    [contradiction|].
  cbn [truthy_lista]. rewrite filtrar_mascara_map. apply filter_ext_in.
  intros r Hr. destruct (col r) as [x|] eqn:Ex; [|reflexivity].
  cbn [tem_valor]. apply isin_true. exists x. split; [reflexivity|].
  rewrite <- E. apply ordenar_textos_In, distintos_In.
  rewrite <- Ex. apply in_map. exact Hr.
Qed.

(** X17. Selecting every name that a multi-select dropdown offers is not
    the empty selection: when the dropdown offers at least one name, the
    filtered subset is the rows whose cell in that column is not null, so
    the rows with no matching product, store or customer are dropped. *)
Theorem select_all_drops_nulls (df_total : list FactRow) :
  (ordenar_textos (ft_produto (filtros df_total)) <> [] ->
   query_engine df_total
     (mkSelecao None None (Some (ordenar_textos (ft_produto (filtros df_total))))
        None None)
   = List.filter (fun r => tem_valor (f_produto r)) df_total) /\
  (ordenar_textos (ft_loja (filtros df_total)) <> [] ->
   query_engine df_total
     (mkSelecao None None None
        (Some (ordenar_textos (ft_loja (filtros df_total)))) None)
   = List.filter (fun r => tem_valor (f_nome_loja r)) df_total) /\
  (ordenar_textos (ft_cliente (filtros df_total)) <> [] ->
   query_engine df_total
     (mkSelecao None None None None
        (Some (ordenar_textos (ft_cliente (filtros df_total)))))
   = List.filter (fun r => tem_valor (f_nome_completo r)) df_total).
Proof.
  split; [|split]; intros Hne.
  - apply (filtro_lista_todas f_produto df_total Hne).
  - apply (filtro_lista_todas f_nome_loja df_total Hne).
  - apply (filtro_lista_todas f_nome_completo df_total Hne).
Qed.

End Painel.

(** * The model on the workbooks above *)

Lemma ex_df_total_built :
  construir_df_total parse_dmy ex_arquivos ex_clientes ex_produtos ex_lojas
  = Ok ex_df_total.
Proof. vm_compute. reflexivity. Qed.

Lemma ex_df_grande_built :
  construir_df_total parse_dmy ex_arquivos_grandes ex_clientes
    ex_produtos_caros ex_lojas
  = Ok ex_df_grande.
Proof. vm_compute. reflexivity. Qed.


(** C3, at a selection whose fields are absent, empty text or empty list. *)
Lemma query_engine_identity_witness :
  selecao_vazia (mkSelecao None (Some ""%string) (Some []) None None) /\
  query_engine ex_df_total (mkSelecao None (Some ""%string) (Some []) None None)
  = ex_df_total.
Proof.
  split.
  - unfold selecao_vazia. simpl. tauto.
  - apply (query_engine_identity ex_df_total
             (mkSelecao None (Some ""%string) (Some []) None None)).
    unfold selecao_vazia. simpl. tauto.
Defined.


(** C6 as stated fails on the fact table above: [Socks] is a type of the
    Filter Index, its only product has no brand, and the brand list for it
    is empty. *)
Lemma marcas_counterexample :
  ~ marcas_nao_vazias ex_df_total (Some "Socks"%string).
Proof. intros H. apply H; reflexivity. Qed.

(** C7. On the workbooks above, whose third sale has the unreadable date
    text [sem data], the fact table is built without raising and the date of
    that sale is null; the sales-by-year series leaves the sale out, but the
    monthly series has it under the label [NaT]. *)
Theorem monthly_trend_keeps_null_dates :
  construir_df_total parse_dmy ex_arquivos ex_clientes ex_produtos ex_lojas
  = Ok ex_df_total /\
  List.map f_data ex_df_total
  = [Some (mkDate 2021 3 1); Some (mkDate 2021 3 15); None] /\
  vendas_por_ano ex_df_total = [(2021, 40)] /\
  vendas_mes ex_df_total = [("2021-03"%string, 40); ("NaT"%string, 20)] /\
  ~ mes_exclui_sem_data ex_df_total.
Proof.
  split; [exact ex_df_total_built|].
  split; [reflexivity|]. split; [reflexivity|]. split; [reflexivity|].
  unfold mes_exclui_sem_data. vm_compute. discriminate.
Qed.

(** C9, on a store that holds the fact table above at address 0. *)
Lemma atualizar_graficos_frame_witness :
  ({[ 0%nat := mkFrame ex_df_total None ]} : gmap nat Frame) !! 0%nat
  = Some (mkFrame ex_df_total None) /\
  exists σ',
    atualizar_graficos parse_dmy 0 sel_socks {[ 0%nat := mkFrame ex_df_total None ]}
    = Ok (figuras ex_df_total sel_socks, σ') /\
    σ' !! 0%nat = Some (mkFrame ex_df_total None).
Proof.
  split; [reflexivity|].
  destruct (atualizar_graficos_frame parse_dmy
              {[ 0%nat := mkFrame ex_df_total None ]} 0
              (mkFrame ex_df_total None) sel_socks)
    as (σ' & E & Hb & _); [reflexivity|].
  exists σ'. split; [exact E|exact Hb].
Defined.

(** C10, for the customer of the workbooks above who has no first name. *)
Lemma nome_completo_nan_witness :
  nome_completo (mkClienteSeparado (Some 3) None (Some "Silva"%string))
  = "nan Silva"%string /\
  In "nan Silva"%string (ft_cliente (filtros ex_df_total)) /\
  In "nan Silva"%string (List.map fst (top_clientes ex_df_total)).
Proof.
  destruct (nome_completo_nan ex_vendas
              [ mkClienteSeparado (Some 1) (Some "Alice"%string) (Some "Souza"%string);
                mkClienteSeparado (Some 2) (Some "Bob"%string) (Some "Lima"%string);
                mkClienteSeparado (Some 3) None (Some "Silva"%string) ]
              ex_produtos ex_lojas
              (mkClienteSeparado (Some 3) None (Some "Silva"%string))
              (mkVenda None (Some 3) (Some 102) (Some 3) (Some 1) (Some 11)))
    as (_ & _ & Hft & _ & _ & _ & Htop).
  - simpl. tauto.
  - left. reflexivity.
  - simpl. tauto.
  - reflexivity.
  - split; [reflexivity|]. split; [exact Hft|]. apply Htop. vm_compute. lia.
Defined.

(** X1, on the workbooks above, whose reference keys are all distinct. *)
Lemma juntar_one_row_per_sale_witness :
  List.map venda_de ex_df_total = ex_vendas.
Proof.
  apply (juntar_one_row_per_sale ex_vendas (normalizar_clientes ex_clientes)
           ex_produtos ex_lojas).
  - unfold chaves_unicas. simpl. repeat constructor; simpl; intuition discriminate.
  - unfold chaves_unicas. simpl. repeat constructor; simpl; intuition discriminate.
  - unfold chaves_unicas. simpl. repeat constructor; simpl; intuition discriminate.
Defined.

(** X3, for the third sale of the workbooks above. *)
Lemma nome_completo_null_iff_unmatched_witness :
  Some "nan Silva"%string = None <->
  forall c,
    In c [ mkClienteSeparado (Some 1) (Some "Alice"%string) (Some "Souza"%string);
           mkClienteSeparado (Some 2) (Some "Bob"%string) (Some "Lima"%string);
           mkClienteSeparado (Some 3) None (Some "Silva"%string) ] ->
    chave_eqb (Some 3) (cs_id c) = false.
Proof.
  apply (nome_completo_null_iff_unmatched ex_vendas _ ex_produtos ex_lojas
           (mkFactRow None (Some 3) (Some 102) (Some 3) (Some 1) (Some 11)
              (Some "nan Silva"%string) (Some "Meia"%string)
              (Some "Socks"%string) None (Some 20) None None (Some 20))).
  vm_compute. tauto.
Defined.

(** X6, for the type [Socks] of the workbooks above. *)
Lemma offered_type_selects_rows_witness :
  exists r, In r (query_engine ex_df_total
                    (mkSelecao (Some "Socks"%string) None None None None)) /\
            f_tipo r = Some "Socks"%string.
Proof.
  apply (offered_type_selects_rows ex_df_total "Socks"%string).
  vm_compute. tauto.
Defined.

(** X7, for the customer name [nan Silva] of the workbooks above. *)
Lemma offered_name_selects_rows_witness :
  exists r, In r (query_engine ex_df_total
                    (mkSelecao None None None None (Some ["nan Silva"%string]))) /\
            f_nome_completo r = Some "nan Silva"%string.
Proof.
  apply (offered_name_selects_rows ex_df_total "nan Silva"%string).
  vm_compute. tauto.
Defined.

(** X8, for the brand [X] offered for the type [Shoes]. *)
Lemma offered_brand_selects_rows_witness :
  exists r, In r (query_engine ex_df_total
                    (mkSelecao (Some "Shoes"%string) (Some "X"%string)
                       None None None)) /\
            f_tipo r = Some "Shoes"%string /\ f_marca r = Some "X"%string.
Proof.
  apply (offered_brand_selects_rows ex_df_total (Some "Shoes"%string) "X"%string).
  vm_compute. tauto.
Defined.

(** X13, on a store that holds the fact table above at address 0. *)
Lemma reconversao_data_noop_witness :
  bind (lift (to_datetime parse_dmy ErrCoerce
                (List.map (fun r => celula (f_data r)) ex_df_total)))
       (fun datas => df_set_data 0 datas)
       {[ 0%nat := mkFrame ex_df_total None ]}
  = Ok (tt, {[ 0%nat := mkFrame ex_df_total None ]}).
Proof.
  apply (reconversao_data_noop parse_dmy
           {[ 0%nat := mkFrame ex_df_total None ]} 0 ex_df_total None).
  reflexivity.
Defined.

(** X16, for March and November 2021 and the fact table above. *)
Lemma month_labels_chronological_witness :
  (String.leb (rotulo_mes (Some (mkDate 2021 3 1)))
              (rotulo_mes (Some (mkDate 2021 11 15))) = true
   <-> mes_ate (mkDate 2021 3 1) (mkDate 2021 11 15)) /\
  String.leb (rotulo_mes (Some (mkDate 2021 3 1))) (rotulo_mes None) = true.
Proof.
  destruct (month_labels_chronological ex_df_total
              (mkDate 2021 3 1) (mkDate 2021 11 15))
    as (_ & H1 & H2 & _).
  - unfold mes_valido. simpl. lia.
  - unfold mes_valido. simpl. lia.
  - split; [exact H1|exact H2].
Defined.

(** X17, for the store dropdown of the fact table above: the sale whose
    store key matches no store is dropped. *)
Lemma select_all_drops_nulls_witness :
  query_engine ex_df_total
    (mkSelecao None None None
       (Some (ordenar_textos (ft_loja (filtros ex_df_total)))) None)
  = List.filter (fun r => tem_valor (f_nome_loja r)) ex_df_total.
Proof.
  apply (select_all_drops_nulls ex_df_total).
  vm_compute. discriminate.
Defined.
